(** * WXPush: request authentication and channel dispatch

    A shallow embedding of the core of the message-relay service
    ([wxpush.core.security], [wxpush.core.dependencies],
    [wxpush.utils.http_client], [wxpush.services.wechat],
    [wxpush.services.workwechat], [wxpush.routers.send]) together with the
    properties its specification states about them.

    Conventions of the embedding.
    - A Python [str] is a [string]: the sequence of the bytes of its UTF-8
      encoding.  Substring search and splitting on ASCII separators commute
      with UTF-8 encoding, so [in] and [str.split] are modelled bytewise.
    - A Python [int] is a [Z]; its decimal text is [Py.str_of_int].  The
      built-in [int] on a [str] is a parameter ([PyInt]).
    - [None] is [None]; an optional argument is an [option].
    - A vendor reply ([dict[str, Any]]) is a [gmap string pyval].
    - Outbound HTTP and raised exceptions are explicit: a computation returns
      the list of HTTP calls it attempted and either a value or the raised
      exception.  The current time and the contents of [api_keys.json] are
      arguments.
    - FastAPI's parsing of a request is outside the embedding: a GET
      request is given with its parameters parsed, a POST request with its
      body validated.  The models pydantic builds inside the code are
      embedded with their bounds; the text of a validation error is a
      parameter ([Pydantic]).
    - Logging has no effect on results and is left out.  What is not a
      subclass of [Exception] (a cancelled coroutine, interpreter exit) and the
      interpreter's limits (memory, the cap on the digits of a decimal
      conversion) are outside the embedding. *)

From Stdlib Require Import ZArith String Ascii Lia DecimalString.
From Stdlib Require OrderedTypeEx.
From stdpp Require Import base option list sorting gmap strings.

Open Scope Z_scope.

(** ** Python strings *)

Module Py.

(** [sub in s] *)
Fixpoint contains (sub s : string) : bool :=
  if String.prefix sub s then true
  else match s with
       | EmptyString => false
       | String _ s' => contains sub s'
       end.

(** [s.split(sep)] for a non-empty separator: the pieces between the
    non-overlapping occurrences of [sep], scanned from the left.  [skip]
    counts the characters of a separator still to be dropped and [cur]
    holds the current piece, reversed. *)
Fixpoint split_from (sep : string) (skip : nat) (cur : string) (s : string)
  : list string :=
  match s with
  | EmptyString => [String.rev cur]
  | String c s' =>
      match skip with
      | S k => split_from sep k cur s'
      | O =>
          if String.prefix sep s
          then String.rev cur :: split_from sep (String.length sep - 1) "" s'
          else split_from sep 0 (String c cur) s'
      end
  end.

Definition split (sep s : string) : list string := split_from sep 0 "" s.

(** [str(n)] and [f"{n}"] for an [int] *)
Definition str_of_int (n : Z) : string := NilZero.string_of_int (Z.to_int n).

(** The ASCII whitespace [int()] strips from both ends of its argument:
    space, tab, line feed, vertical tab, form feed, carriage return. *)
Definition is_space (c : ascii) : bool :=
  let n := nat_of_ascii c in
  ((9 <=? n)%nat && (n <=? 13)%nat) || (n =? 32)%nat.

Definition digit_of (c : ascii) : option Z :=
  let n := nat_of_ascii c in
  if ((48 <=? n)%nat && (n <=? 57)%nat)%bool then Some (Z.of_nat n - 48)
  else None.

Fixpoint lstrip (s : string) : string :=
  match s with
  | String c s' => if is_space c then lstrip s' else s
  | EmptyString => s
  end.

Definition strip (s : string) : string :=
  String.rev (lstrip (String.rev (lstrip s))).

(** The digits of a decimal literal; a single underscore is allowed between
    two digits.  [prev] tells whether the previous character was a digit,
    [acc] is the value read so far and [cnt] the number of digits. *)
Fixpoint digits_from (prev : bool) (acc : Z) (cnt : nat) (s : string)
  : option (Z * nat) :=
  match s with
  | EmptyString => if prev then Some (acc, cnt) else None
  | String c s' =>
      match digit_of c with
      | Some d => digits_from true (10 * acc + d) (S cnt) s'
      | None =>
          if (Ascii.eqb c "_"%char && prev)%bool
          then digits_from false acc cnt s'
          else None
      end
  end.

(** The longest digit string [int()] converts (the interpreter's default
    [sys.get_int_max_str_digits()]); a longer one raises [ValueError]. *)
Definition int_max_str_digits : nat := 4300.

(** [int(s)] in base 10 on ASCII text: [None] stands for the [ValueError]
    that [int] raises.  On text outside ASCII, where [int] also accepts the
    decimal digits and the spaces of other scripts, this function answers
    [None]; it is used to evaluate the code on ASCII samples only. *)
Definition int_of_str (s : string) : option Z :=
  let body := strip s in
  let '(neg, ds) :=
    match body with
    | String "-"%char r => (true, r)
    | String "+"%char r => (false, r)
    | _ => (false, body)
    end in
  match digits_from false 0 0 ds with
  | Some (v, cnt) =>
      if (int_max_str_digits <? cnt)%nat then None
      else Some (if neg then - v else v)
  | None => None
  end.

(** [s.isascii()] *)
Fixpoint is_ascii (s : string) : bool :=
  match s with
  | EmptyString => true
  | String c s' => (nat_of_ascii c <? 128)%nat && is_ascii s'
  end.

(** [bool(s)] for a [str] and for an optional [str] *)
(** [len(s)]: the number of characters, that is of the bytes of [s] that
    do not continue a character (those from 128 to 191 do). *)
Fixpoint len (s : string) : nat :=
  match s with
  | EmptyString => 0%nat
  | String c s' =>
      let n := nat_of_ascii c in
      ((if (128 <=? n)%nat && (n <? 192)%nat then 0 else 1) + len s')%nat
  end.

Definition truthy (s : string) : bool :=
  match s with EmptyString => false | _ => true end.

Definition truthy_opt (o : option string) : bool :=
  match o with Some s => truthy s | None => false end.

(** [sep.join(l)] *)
Fixpoint join (sep : string) (l : list string) : string :=
  match l with
  | [] => ""
  | [x] => x
  | x :: rest => x +:+ sep +:+ join sep rest
  end.

End Py.

(** The built-in [int] applied to a [str]: the integer it returns, [None]
    when it raises [ValueError].  The embedding leaves it open and the
    properties hold whatever texts it accepts. *)
Class PyInt : Type := py_int : string -> option Z.

(** ** SHA-256 and HMAC (FIPS 180-4, RFC 2104), as [hashlib] and [hmac]
    compute them.  Words are integers below [2^32]; a message is the list of
    its bytes. *)

Module SHA256.

Definition w32 (x : Z) : Z := x mod 2 ^ 32.

Definition rotr (n x : Z) : Z :=
  w32 (Z.lor (Z.shiftr x n) (Z.shiftl x (32 - n))).

Definition ch (x y z : Z) : Z :=
  Z.lxor (Z.land x y) (Z.land (Z.lxor x (2 ^ 32 - 1)) z).

Definition maj (x y z : Z) : Z :=
  Z.lxor (Z.lxor (Z.land x y) (Z.land x z)) (Z.land y z).

Definition bsig0 (x : Z) : Z :=
  Z.lxor (Z.lxor (rotr 2 x) (rotr 13 x)) (rotr 22 x).
Definition bsig1 (x : Z) : Z :=
  Z.lxor (Z.lxor (rotr 6 x) (rotr 11 x)) (rotr 25 x).
Definition ssig0 (x : Z) : Z :=
  Z.lxor (Z.lxor (rotr 7 x) (rotr 18 x)) (Z.shiftr x 3).
Definition ssig1 (x : Z) : Z :=
  Z.lxor (Z.lxor (rotr 17 x) (rotr 19 x)) (Z.shiftr x 10).

(** The first sixty-four primes. *)
Definition primes : list Z :=
  [2; 3; 5; 7; 11; 13; 17; 19; 23; 29; 31; 37; 41; 43; 47; 53;
   59; 61; 67; 71; 73; 79; 83; 89; 97; 101; 103; 107; 109; 113; 127; 131;
   137; 139; 149; 151; 157; 163; 167; 173; 179; 181; 191; 193; 197; 199;
   211; 223; 227; 229; 233; 239; 241; 251; 257; 263; 269; 271; 277; 281;
   283; 293; 307; 311].

(** Integer cube root by bisection on the bits of the result. *)
Fixpoint cbrt_bits (bits : nat) (n r : Z) : Z :=
  match bits with
  | O => r
  | S b =>
      let r' := r + 2 ^ Z.of_nat b in
      cbrt_bits b n (if r' * r' * r' <=? n then r' else r)
  end.

(** Round constants: the first 32 bits of the fractional parts of the cube
    roots of the primes. *)
Definition K : list Z :=
  Eval vm_compute in map (fun p => w32 (cbrt_bits 40 (p * 2 ^ 96) 0)) primes.

(** Initial hash value: the first 32 bits of the fractional parts of the
    square roots of the first eight primes. *)
Definition H0 : list Z :=
  Eval vm_compute in map (fun p => w32 (Z.sqrt (p * 2 ^ 64))) (take 8 primes).

Definition word_of_bytes (b : list Z) : Z :=
  fold_left (fun acc x => acc * 256 + x) b 0.

Fixpoint bytes_of_word (n : nat) (w : Z) : list Z :=
  match n with
  | O => []
  | S k => (w / 256 ^ Z.of_nat k) mod 256 :: bytes_of_word k w
  end.

Definition pad (msg : list Z) : list Z :=
  let len := Z.of_nat (length msg) in
  let zeros := Z.to_nat ((55 - len) mod 64) in
  msg ++ [128] ++ replicate zeros 0 ++ bytes_of_word 8 (8 * len).

(** Cut a list into chunks of [n + 1] elements ([todo] elements are still
    missing from the current chunk [cur], kept reversed). *)
Fixpoint chunks_from {A} (n todo : nat) (cur : list A) (l : list A)
  : list (list A) :=
  match l with
  | [] => match cur with [] => [] | _ => [rev cur] end
  | x :: l' =>
      match todo with
      | O => rev (x :: cur) :: chunks_from n n [] l'
      | S k => chunks_from n k (x :: cur) l'
      end
  end.

Definition chunks {A} (size : nat) (l : list A) : list (list A) :=
  chunks_from (size - 1) (size - 1) [] l.

(** Message schedule, most recent word first. *)
Fixpoint schedule (n : nat) (w : list Z) : list Z :=
  match n with
  | O => w
  | S k =>
      let x := w32 (ssig1 (nth 1 w 0) + nth 6 w 0
                    + ssig0 (nth 14 w 0) + nth 15 w 0) in
      schedule k (x :: w)
  end.

Definition round (st : list Z) (kw : Z * Z) : list Z :=
  match st with
  | [a; b; c; d; e; f; g; h] =>
      let t1 := h + bsig1 e + ch e f g + fst kw + snd kw in
      let t2 := bsig0 a + maj a b c in
      [w32 (t1 + t2); a; b; c; w32 (d + t1); e; f; g]
  | _ => st
  end.

Definition compress (h : list Z) (block : list Z) : list Z :=
  let w := rev (schedule 48 (rev (map word_of_bytes (chunks 4 block)))) in
  let st := fold_left round (zip K w) h in
  zip_with (fun x y => w32 (x + y)) h st.

Definition digest (msg : list Z) : list Z :=
  flat_map (bytes_of_word 4) (fold_left compress (chunks 64 (pad msg)) H0).

Definition block_size : nat := 64.

(** [hmac.new(key, msg, sha256).digest()] *)
Definition hmac (key msg : list Z) : list Z :=
  let k0 := if (block_size <? length key)%nat then digest key else key in
  let k := k0 ++ replicate (block_size - length k0) 0 in
  let ipad := map (fun b => Z.lxor b 54) k in
  let opad := map (fun b => Z.lxor b 92) k in
  digest (opad ++ digest (ipad ++ msg)).

Definition hex_digit (n : Z) : ascii :=
  ascii_of_nat (Z.to_nat (if n <? 10 then 48 + n else 87 + n)).

(** [bytes.hex()]: two lower-case digits per byte. *)
Fixpoint hex (bytes : list Z) : string :=
  match bytes with
  | [] => ""
  | b :: rest =>
      String (hex_digit (b / 16 mod 16)) (String (hex_digit (b mod 16)) (hex rest))
  end.

(** [s.encode("utf-8")] on the byte representation of a [str] *)
Fixpoint encode (s : string) : list Z :=
  match s with
  | EmptyString => []
  | String c s' => Z.of_nat (nat_of_ascii c) :: encode s'
  end.

(** [hmac.new(key.encode(), msg.encode(), sha256).hexdigest()] *)
Definition hmac_hexdigest (key msg : string) : string :=
  hex (hmac (encode key) (encode msg)).

End SHA256.

(** ** Python values, exceptions and outbound HTTP *)

(** The values a vendor reply carries ([Any]).  [None], [bool], [int] and
    [str] are embedded as such; any other value (a float, a list, a dict)
    is known by what the code observes of it: its text in an f-string,
    whether it is true, and whether it differs from [0]. *)
Inductive pyval : Type :=
| PNone
| PBool (b : bool)
| PInt (n : Z)
| PStr (s : string)
| POther (text : string) (true_value differs_from_zero : bool).

Module Val.

(** [v != 0] *)
Definition ne_zero (v : pyval) : bool :=
  match v with
  | PInt n => negb (n =? 0)
  | PBool b => b
  | PNone | PStr _ => true
  | POther _ _ differs_from_zero => differs_from_zero
  end.

(** [f"{v}"] *)
Definition format (v : pyval) : string :=
  match v with
  | PNone => "None"
  | PBool true => "True"
  | PBool false => "False"
  | PInt n => Py.str_of_int n
  | PStr s => s
  | POther text _ _ => text
  end.

(** [bool(v)] *)
Definition truthy (v : pyval) : bool :=
  match v with
  | PNone => false
  | PBool b => b
  | PInt n => negb (n =? 0)
  | PStr s => Py.truthy s
  | POther _ true_value _ => true_value
  end.

End Val.

(** [d.get(k, default)] and [d.get(k)] *)
Definition dict_get (d : gmap string pyval) (k : string) (dflt : pyval) : pyval :=
  default dflt (d !! k).

Definition dict_get_none (d : gmap string pyval) (k : string) : pyval :=
  dict_get d k PNone.

(** [k in d] *)
Definition dict_has (d : gmap string pyval) (k : string) : bool :=
  bool_decide (is_Some (d !! k)).

(** The exceptions the code raises or catches, each with [str(e)].
    [ValueError] stands for the class and its subclasses (a JSON decoding
    error is one), [HTTPStatusError] and [RequestError] for those of the
    HTTP client, [OtherError] for any other subclass of [Exception] (the
    [RuntimeError] of a client that was not initialised, for one). *)
Inductive exn : Type :=
| ValueError (msg : string)
| TypeError (msg : string)
| HTTPStatusError (status_code : Z) (msg : string)
| RequestError (msg : string)
| OtherError (msg : string).

Definition exn_str (e : exn) : string :=
  match e with
  | ValueError m | TypeError m | HTTPStatusError _ m
  | RequestError m | OtherError m => m
  end.

(** A JSON request body. *)
#[warnings="-register-all"] Inductive json : Type :=
| JStr (s : string)
| JInt (n : Z)
| JObj (fields : list (string * json)).

(** An outbound HTTP call as the client receives it. *)
Inductive call : Type :=
| GET (url : string) (params : list (string * string))
| POST (url : string) (body : json).

Inductive result (E A : Type) : Type :=
| Ok (a : A)
| Raise (e : E).
Arguments Ok {E A} a.
Arguments Raise {E A} e.

(** A computation: the outbound calls it attempted, in order, and how it
    ended. *)
Definition M (E A : Type) : Type := list call * result E A.

Definition ret {E A} (a : A) : M E A := ([], Ok a).
Definition raise {E A} (e : E) : M E A := ([], Raise e).

Definition bind {E A B} (m : M E A) (k : A -> M E B) : M E B :=
  match m with
  | (calls, Ok a) => let '(calls', r) := k a in (calls ++ calls', r)
  | (calls, Raise e) => (calls, Raise e)
  end.

(** [try: m  except ... as e: h e]; a handler re-raises what its clauses do
    not match. *)
Definition try_except {E A} (m : M E A) (h : E -> M E A) : M E A :=
  match m with
  | (calls, Ok a) => (calls, Ok a)
  | (calls, Raise e) => let '(calls', r) := h e in (calls ++ calls', r)
  end.

Notation "x <- m ;; k" := (bind m (fun x => k))
  (at level 100, m at next level, right associativity).

(** The vendors and the network between: what a call yields.  A reply that
    cannot be fetched or decoded is the exception the HTTP client raises. *)
Record Vendor : Type := {
  http_get : string -> list (string * string) -> result exn (gmap string pyval);
  http_post : string -> json -> result exn (gmap string pyval);
}.

(** ** [wxpush.core.config] *)

Record Settings : Type := {
  api_keys : option (list string);
  api_key_secret : option string;
  default_wechat_template_id : option string;
  default_workwechat_agentid : option string;
  (** what [_load_api_keys_from_file] returns: the [valid_keys] of
      [api_keys.json], or the empty list *)
  api_keys_file : list string;
}.

Definition api_keys_list (settings : Settings) : list string :=
  match api_keys settings with
  | None => api_keys_file settings
  | Some keys => keys
  end.

(** ** [wxpush.core.security] *)

Definition TIMESTAMP_VALIDITY_WINDOW : Z := 300.

Definition verify_api_key (settings : Settings) (api_key : string) : bool :=
  if negb (Py.truthy api_key) then false
  else
    let keys := api_keys_list settings in
    match keys with
    | [] => false
    | _ => bool_decide (api_key ∈ keys)
    end.

Definition generate_signature (settings : Settings)
    (api_key : string) (timestamp : Z) (payload : string)
    (secret : option string) : result exn string :=
  let secret :=
    match secret with
    | None =>
        match api_key_secret settings with
        | Some s => if Py.truthy s then s else ""
        | None => ""
        end
    | Some s => s
    end in
  if negb (Py.truthy secret)
  then Raise (ValueError "Signature secret is required for generating signature")
  else
    let message := api_key +:+ Py.str_of_int timestamp +:+ payload in
    Ok (SHA256.hmac_hexdigest secret message).

(** [hmac.compare_digest] on two [str]: equality, defined on ASCII text
    only. *)
Definition compare_digest (a b : string) : result exn bool :=
  if Py.is_ascii a && Py.is_ascii b then Ok (String.eqb a b)
  else Raise (TypeError "comparing strings with non-ASCII characters is not supported").

Definition verify_signature (settings : Settings)
    (api_key : string) (timestamp : Z) (payload signature : string)
    (secret : option string) : result exn bool :=
  let attempt :=
    match generate_signature settings api_key timestamp payload secret with
    | Ok expected_signature => compare_digest expected_signature signature
    | Raise e => Raise e
    end in
  match attempt with
  | Ok b => Ok b
  | Raise (ValueError _) | Raise (TypeError _) => Ok false
  | Raise e => Raise e
  end.

(** [current_time] is [int(time.time())]. *)
Definition verify_timestamp (current_time timestamp validity_window : Z) : bool :=
  let time_diff := Z.abs (current_time - timestamp) in
  time_diff <=? validity_window.

Definition MSG_INVALID_KEY : string := "项目识别码无效".
Definition MSG_TIMESTAMP_REQUIRED : string := "使用签名验证时，时间戳参数必填".
Definition MSG_TIMESTAMP_EXPIRED : string := "请求时间戳过期".
Definition MSG_SIGNATURE_FAILED : string := "识别码签名验证失败".
Definition MSG_VALID : string := "验证成功".

Definition validate_api_key_with_signature (settings : Settings) (current_time : Z)
    (api_key : string) (timestamp : option Z) (payload : string)
    (signature : option string) : result exn (bool * string) :=
  if negb (verify_api_key settings api_key) then Ok (false, MSG_INVALID_KEY)
  else
    match signature with
    | Some sig =>
        if Py.truthy sig then
          match timestamp with
          | None => Ok (false, MSG_TIMESTAMP_REQUIRED)
          | Some ts =>
              if negb (verify_timestamp current_time ts TIMESTAMP_VALIDITY_WINDOW)
              then Ok (false, MSG_TIMESTAMP_EXPIRED)
              else
                match verify_signature settings api_key ts payload sig None with
                | Ok true => Ok (true, MSG_VALID)
                | Ok false => Ok (false, MSG_SIGNATURE_FAILED)
                | Raise e => Raise e
                end
          end
        else Ok (true, MSG_VALID)
    | None => Ok (true, MSG_VALID)
    end.

(** ** [wxpush.utils.http_client] *)

Module http_client.

Definition fetch_json (v : Vendor) (url : string)
    (params : list (string * string)) : M exn (gmap string pyval) :=
  ([GET url params], http_get v url params).

Definition post_json (v : Vendor) (url : string) (body : json)
  : M exn (gmap string pyval) :=
  ([POST url body], http_post v url body).

Definition get_access_token (v : Vendor) (token_url appid secret grant_type : string)
  : M exn (pyval * pyval) :=
  let params :=
    [("grant_type", grant_type); ("appid", appid); ("secret", secret)] in
  try_except
    (response_data <- fetch_json v token_url params ;;
     _ <- (if dict_has response_data "errcode" then
             let errcode := dict_get response_data "errcode" (PInt 0) in
             let errmsg := dict_get response_data "errmsg" (PStr "Unknown error") in
             if Val.ne_zero errcode
             then raise (ValueError ("WeChat API error: errcode=" +:+ Val.format errcode
                                     +:+ ", errmsg=" +:+ Val.format errmsg))
             else ret tt
           else ret tt) ;;
     let access_token := dict_get_none response_data "access_token" in
     let expires_in := dict_get response_data "expires_in" (PInt 7200) in
     if negb (Val.truthy access_token)
     then raise (ValueError "Access token not found in response")
     else ret (access_token, expires_in))
    (fun e =>
       match e with
       | HTTPStatusError status_code _ =>
           raise (ValueError ("Failed to get access token: HTTP "
                              +:+ Py.str_of_int status_code))
       | RequestError m =>
           raise (ValueError ("Failed to get access token: " +:+ m))
       | _ => raise e
       end).

End http_client.

(** A [SendResult]: the dict [{"errcode": .., "errmsg": .., "msgid": ..}]. *)
Definition send_result (errcode : Z) (errmsg : string) (msgid : pyval)
  : gmap string pyval :=
  <["errcode" := PInt errcode]> (<["errmsg" := PStr errmsg]> (<["msgid" := msgid]> ∅)).

(** The code the two adapters read out of the text of a caught [ValueError]:
    [error_msg.split("errcode=")[1].split(",")[0]] given to [int], inside a
    [try] that passes on [ValueError] and [IndexError]. *)
Definition errcode_of_message `{PyInt} (error_msg : string) : Z :=
  let errcode := 50000 in
  if Py.contains "errcode=" error_msg then
    match Py.split "errcode=" error_msg !! 1%nat with
    | None => errcode
    | Some after =>
        match Py.split "," after !! 0%nat with
        | None => errcode
        | Some errcode_str =>
            match py_int errcode_str with
            | Some n => n
            | None => errcode
            end
        end
    end
  else errcode.

(** ** [wxpush.services.wechat] *)

Module WeChatService.

Definition WECHAT_TOKEN_URL : string := "https://api.weixin.qq.com/cgi-bin/token".
Definition WECHAT_TEMPLATE_SEND_URL : string :=
  "https://api.weixin.qq.com/cgi-bin/message/template/send".

(** A [ValueError] is logged and raised again; nothing else is caught. *)
Definition get_access_token (v : Vendor) (appid secret : string)
  : M exn (pyval * pyval) :=
  try_except
    (http_client.get_access_token v WECHAT_TOKEN_URL appid secret "client_credential")
    (fun e => raise e).

Definition MSG_TEMPLATE_REQUIRED : string :=
  "template_id 是必需的。请在请求中提供 template_id 参数，或在配置中设置 default_wechat_template_id".

Definition send_template_message (settings : Settings) (v : Vendor)
    (access_token : pyval) (userid title content : string)
    (base_url template_id : option string) : M exn (gmap string pyval) :=
  let template_id :=
    if negb (Py.truthy_opt template_id)
    then default_wechat_template_id settings else template_id in
  match template_id with
  | Some tid =>
      if negb (Py.truthy tid) then raise (ValueError MSG_TEMPLATE_REQUIRED)
      else
        let template_data :=
          JObj [("title", JObj [("value", JStr title); ("color", JStr "#173177")]);
                ("content", JObj [("value", JStr content); ("color", JStr "#173177")])] in
        let request_body :=
          [("touser", JStr userid); ("template_id", JStr tid); ("data", template_data)] in
        let request_body :=
          match base_url with
          | Some u => if Py.truthy u then request_body ++ [("url", JStr u)]
                      else request_body
          | None => request_body
          end in
        try_except
          (response_data <-
             http_client.post_json v
               (WECHAT_TEMPLATE_SEND_URL +:+ "?access_token=" +:+ Val.format access_token)
               (JObj request_body) ;;
           _ <- (if dict_has response_data "errcode" then
                   let errcode := dict_get response_data "errcode" (PInt 0) in
                   let errmsg := dict_get response_data "errmsg" (PStr "Unknown error") in
                   if Val.ne_zero errcode
                   then raise (ValueError ("微信 API 错误: errcode=" +:+ Val.format errcode
                                           +:+ ", errmsg=" +:+ Val.format errmsg))
                   else ret tt
                 else ret tt) ;;
           ret response_data)
          (fun e =>
             match e with
             | ValueError _ => raise e
             | _ => raise (ValueError ("发送微信模板消息失败: " +:+ exn_str e))
             end)
  | None => raise (ValueError MSG_TEMPLATE_REQUIRED)
  end.

(** The body of the [try] of [send_message]. *)
Definition send_message_try (settings : Settings) (v : Vendor)
    (appid secret userid title content : string)
    (base_url template_id : option string) : M exn (gmap string pyval) :=
  token <- get_access_token v appid secret ;;
  response_data <-
    send_template_message settings v (fst token) userid title content
      base_url template_id ;;
  ret (send_result 0 "ok" (dict_get_none response_data "msgid")).

Definition send_message `{PyInt} (settings : Settings) (v : Vendor)
    (appid secret userid title content : string)
    (base_url template_id : option string) : M exn (gmap string pyval) :=
  try_except
    (send_message_try settings v appid secret userid title content base_url template_id)
    (fun e =>
       match e with
       | ValueError error_msg =>
           ret (send_result (errcode_of_message error_msg) error_msg PNone)
       | _ => ret (send_result 50000 ("发送消息失败: " +:+ exn_str e) PNone)
       end).

End WeChatService.

(** ** [wxpush.services.workwechat] *)

Module WorkWeChatService.

Definition WORKWECHAT_TOKEN_URL : string := "https://qyapi.weixin.qq.com/cgi-bin/gettoken".
Definition WORKWECHAT_MESSAGE_SEND_URL : string :=
  "https://qyapi.weixin.qq.com/cgi-bin/message/send".

Definition get_access_token (v : Vendor) (corpid corpsecret : string)
  : M exn (pyval * pyval) :=
  try_except
    (let params := [("corpid", corpid); ("corpsecret", corpsecret)] in
     response_data <- http_client.fetch_json v WORKWECHAT_TOKEN_URL params ;;
     _ <- (if dict_has response_data "errcode" then
             let errcode := dict_get response_data "errcode" (PInt 0) in
             let errmsg := dict_get response_data "errmsg" (PStr "Unknown error") in
             if Val.ne_zero errcode
             then raise (ValueError ("企业微信 API 错误: errcode=" +:+ Val.format errcode
                                     +:+ ", errmsg=" +:+ Val.format errmsg))
             else ret tt
           else ret tt) ;;
     let access_token := dict_get_none response_data "access_token" in
     let expires_in := dict_get response_data "expires_in" (PInt 7200) in
     if negb (Val.truthy access_token)
     then raise (ValueError "Access token not found in response")
     else ret (access_token, expires_in))
    (fun e =>
       match e with
       | ValueError _ => raise e
       | _ => raise (ValueError ("获取企业微信 Access Token 失败: " +:+ exn_str e))
       end).

Definition _send_text_message `{PyInt} (v : Vendor) (access_token : pyval)
    (userid agentid title content : string) : M exn (gmap string pyval) :=
  let message_text := title +:+ String "010" (String "010" content) in
  match py_int agentid with
  | None => raise (ValueError ("agentid 必须是有效的整数，当前值: " +:+ agentid))
  | Some agentid_int =>
      let request_body :=
        JObj [("touser", JStr userid); ("msgtype", JStr "text");
              ("agentid", JInt agentid_int);
              ("text", JObj [("content", JStr message_text)]);
              ("safe", JInt 0)] in
      try_except
        (response_data <-
           http_client.post_json v
             (WORKWECHAT_MESSAGE_SEND_URL +:+ "?access_token=" +:+ Val.format access_token)
             request_body ;;
         _ <- (if dict_has response_data "errcode" then
                 let errcode := dict_get response_data "errcode" (PInt 0) in
                 let errmsg := dict_get response_data "errmsg" (PStr "Unknown error") in
                 if Val.ne_zero errcode
                 then raise (ValueError ("企业微信 API 错误: errcode=" +:+ Val.format errcode
                                         +:+ ", errmsg=" +:+ Val.format errmsg))
                 else ret tt
               else ret tt) ;;
         ret response_data)
        (fun e =>
           match e with
           | ValueError _ => raise e
           | _ => raise (ValueError ("发送企业微信消息失败: " +:+ exn_str e))
           end)
  end.

Definition MSG_AGENTID_REQUIRED : string :=
  "agentid 是必需的。请在请求中提供 agentid 参数，或在配置中设置 default_workwechat_agentid".

Definition msg_agentid_not_integer (agentid : string) : string :=
  "agentid 必须是有效的整数，当前值: " +:+ agentid +:+ "，类型: str".

(** The agent id [send_message] goes on with: the argument, or else the
    configured default; [None] when neither is given. *)
Definition resolve_agentid (settings : Settings) (agentid : option string)
  : option string :=
  let agentid :=
    if negb (Py.truthy_opt agentid)
    then default_workwechat_agentid settings else agentid in
  if negb (Py.truthy_opt agentid) then None else agentid.

(** The body of the [try] of [send_message]. *)
Definition send_message_try `{PyInt} (v : Vendor)
    (appid secret userid title content : string) (agentid_int : Z)
  : M exn (gmap string pyval) :=
  token <- get_access_token v appid secret ;;
  response_data <-
    _send_text_message v (fst token) userid (Py.str_of_int agentid_int)
      title content ;;
  ret (send_result 0 "ok" (dict_get_none response_data "msgid")).

Definition send_message `{PyInt} (settings : Settings) (v : Vendor)
    (appid secret userid title content : string)
    (base_url agentid : option string) : M exn (gmap string pyval) :=
  match resolve_agentid settings agentid with
  | None => ret (send_result 40000 MSG_AGENTID_REQUIRED PNone)
  | Some agentid =>
      match py_int agentid with
      | None => ret (send_result 40000 (msg_agentid_not_integer agentid) PNone)
      | Some agentid_int =>
          try_except
            (send_message_try v appid secret userid title content agentid_int)
            (fun e =>
               match e with
               | ValueError error_msg =>
                   ret (send_result (errcode_of_message error_msg) error_msg PNone)
               | _ => ret (send_result 50000 ("发送消息失败: " +:+ exn_str e) PNone)
               end)
      end
  end.

End WorkWeChatService.

(** ** [wxpush.schemas.send] *)

Definition ERRCODE_INVALID_API_KEY : Z := 40001.
Definition ERRCODE_INVALID_SIGNATURE : Z := 40002.
Definition ERRCODE_TIMESTAMP_EXPIRED : Z := 40003.

(** The fields of a [SendRequest]. *)
Record SendRequest : Type := {
  sr_api_key : string;
  sr_title : string;
  sr_content : string;
  sr_appid : string;
  sr_secret : string;
  sr_userid : string;
  sr_base_url : option string;
  sr_template_id : option string;
  sr_agentid : option string;
  sr_channel : string;
  sr_timestamp : option Z;
  sr_signature : option string;
}.

(** The bounds of the fields of a [SendRequest], which pydantic checks when
    one is built: [title] of 1 to 200 characters, [content] of 1 to 5000,
    [appid], [secret] and [userid] not empty, [base_url] of at most 500. *)
Definition SendRequest_in_bounds (r : SendRequest) : bool :=
  (1 <=? Py.len (sr_title r))%nat && (Py.len (sr_title r) <=? 200)%nat
  && (1 <=? Py.len (sr_content r))%nat && (Py.len (sr_content r) <=? 5000)%nat
  && (1 <=? Py.len (sr_appid r))%nat
  && (1 <=? Py.len (sr_secret r))%nat
  && (1 <=? Py.len (sr_userid r))%nat
  && match sr_base_url r with
     | Some u => (Py.len u <=? 500)%nat
     | None => true
     end.

(** The text of the [ValidationError] that pydantic raises when a
    [SendRequest] or a [SendResponse] cannot be built from the values it is
    given: a parameter of the development. *)
Class Pydantic : Type := {
  send_request_error : SendRequest -> string;
  send_response_error : pyval -> pyval -> pyval -> string;
}.

(** [SendResponse(errcode=.., errmsg=.., msgid=..)] for an [errcode] that
    is equal to 0: it is 0, [False] or [0.0], and pydantic reads each as the
    int 0.  [errmsg] has to be a [str], and [msgid] a [str] or [None]. *)
Definition SendResponse `{Pydantic} (errcode errmsg msgid : pyval)
  : result exn (gmap string pyval) :=
  match errmsg, msgid with
  | PStr _, PStr _ | PStr _, PNone =>
      Ok (<["errcode" := PInt 0]> (<["errmsg" := errmsg]> (<["msgid" := msgid]> ∅)))
  | _, _ => Raise (ValueError (send_response_error errcode errmsg msgid))
  end.

(** ** The boundary: what a route or a dependency raises *)

Inductive boundary_exn : Type :=
| HTTPException (status_code : Z) (detail : gmap string pyval)
| Unhandled (e : exn).

Definition error_detail (errcode : pyval) (errmsg : pyval) : gmap string pyval :=
  <["errcode" := errcode]> (<["errmsg" := errmsg]> ∅).

(** What the application answers: the JSON of a reply, or the
    [{"detail": ..}] FastAPI makes of an [HTTPException]. *)
Inductive http_response : Type :=
| JSONResponse (status_code : Z) (content : gmap string pyval)
| HTTPErrorResponse (status_code : Z) (detail : gmap string pyval).

(** [main.global_exception_handler] and FastAPI's handling of
    [HTTPException], applied to the outcome of a route. *)
Definition respond (m : M boundary_exn (gmap string pyval)) : list call * http_response :=
  match m with
  | (calls, Ok content) => (calls, JSONResponse 200 content)
  | (calls, Raise (HTTPException status_code detail)) =>
      (calls, HTTPErrorResponse status_code detail)
  | (calls, Raise _) =>
      (calls, JSONResponse 500 (error_detail (PInt 50000) (PStr "服务器内部错误")))
  end.

Definition lift_exn {A} (m : M exn A) : M boundary_exn A :=
  match m with
  | (calls, Ok a) => (calls, Ok a)
  | (calls, Raise e) => (calls, Raise (Unhandled e))
  end.

(** ** [wxpush.core.dependencies] *)

Module dependencies.

(** Comparison of [(key, value)] tuples of [str]. *)
Definition tuple_leb (a b : string * string) : bool :=
  match String.compare a.1 b.1 with
  | Lt => true
  | Eq => String.leb a.2 b.2
  | Gt => false
  end.

(** [d[k] = v] on the items of a dict: a key the dict has keeps its place
    and takes the value, a new key goes last. *)
Fixpoint dict_set (k v : string) (d : list (string * string))
  : list (string * string) :=
  match d with
  | [] => [(k, v)]
  | (k', v') :: d' =>
      if bool_decide (k' = k) then (k', v) :: d' else (k', v') :: dict_set k v d'
  end.

(** [dict(request.query_params)]: for each name of the query the last value
    given to it.  [items] are the pairs of the query string, in order. *)
Definition query_params_dict (items : list (string * string))
  : list (string * string) :=
  fold_left (λ d kv, dict_set kv.1 kv.2 d) items [].

(** The payload signed with a GET request: the parameters of the query
    other than [signature], one value for each name, sorted, as [k=v]
    joined by [&].  [items] are the pairs of the query string. *)
Definition query_payload (items : list (string * string)) : string :=
  let query_params :=
    filter (λ kv, kv.1 ≠ "signature") (query_params_dict items) in
  let sorted_params := merge_sort (λ a b, Is_true (tuple_leb a b)) query_params in
  Py.join "&" (map (λ kv, kv.1 +:+ "=" +:+ kv.2) sorted_params).

(** The code the two dependencies give a failed validation, read from its
    message. *)
Definition errcode_of_reason (error_msg : string) : Z :=
  if Py.contains "签名验证失败" error_msg then ERRCODE_INVALID_SIGNATURE
  else if Py.contains "时间戳过期" error_msg then ERRCODE_TIMESTAMP_EXPIRED
  else ERRCODE_INVALID_API_KEY.

Definition HTTP_401_UNAUTHORIZED : Z := 401.

Definition reject_or_pass {A} (validation : result exn (bool * string)) (a : A)
  : M boundary_exn A :=
  match validation with
  | Raise e => raise (Unhandled e)
  | Ok (is_valid, error_msg) =>
      if negb is_valid then
        raise (HTTPException HTTP_401_UNAUTHORIZED
                 (error_detail (PInt (errcode_of_reason error_msg)) (PStr error_msg)))
      else ret a
  end.

Definition verify_api_key_dependency (settings : Settings) (current_time : Z)
    (items : list (string * string))
    (api_key : string) (timestamp : option Z) (signature : option string)
  : M boundary_exn string :=
  let payload := if Py.truthy_opt signature then query_payload items else "" in
  reject_or_pass
    (validate_api_key_with_signature settings current_time
       api_key timestamp payload signature)
    api_key.

Definition dquote : ascii := ascii_of_nat 34.
Definition backslash : ascii := ascii_of_nat 92.

Definition hex_lower (n : nat) : ascii :=
  ascii_of_nat (if (n <? 10)%nat then 48 + n else 87 + n).

Definition esc (c : ascii) (rest : string) : string :=
  String backslash (String c rest).

(** The escapes of [json.dumps(s, ensure_ascii=False)] inside a [str] *)
Fixpoint json_escape (s : string) : string :=
  match s with
  | EmptyString => ""
  | String c s' =>
      let n := nat_of_ascii c in
      let rest := json_escape s' in
      if (n =? 34)%nat then esc dquote rest
      else if (n =? 92)%nat then esc backslash rest
      else if (n =? 8)%nat then esc "b" rest
      else if (n =? 12)%nat then esc "f" rest
      else if (n =? 10)%nat then esc "n" rest
      else if (n =? 13)%nat then esc "r" rest
      else if (n =? 9)%nat then esc "t" rest
      else if (n <? 32)%nat then
        esc "u" ("00" +:+ String (hex_lower (n / 16)) (String (hex_lower (n mod 16)) rest))
      else String c rest
  end.

Definition json_str (s : string) : string :=
  String dquote (json_escape s) +:+ String dquote "".

(** [json.dumps(d, sort_keys=True, ensure_ascii=False)] for a dict of [str]
    and [int] values, given as its items with the values already
    rendered. *)
Definition json_dumps_sorted (items : list (string * string)) : string :=
  let sorted_items := merge_sort (λ a b, Is_true (tuple_leb a b)) items in
  "{" +:+ Py.join ", " (map (λ kv, json_str kv.1 +:+ ": " +:+ kv.2) sorted_items) +:+ "}".

(** The payload signed with a POST request. *)
Definition body_payload (send_request : SendRequest) : string :=
  let payload_dict :=
    [("api_key", json_str (sr_api_key send_request));
     ("title", json_str (sr_title send_request));
     ("content", json_str (sr_content send_request));
     ("appid", json_str (sr_appid send_request));
     ("secret", json_str (sr_secret send_request));
     ("userid", json_str (sr_userid send_request))] in
  let payload_dict :=
    match sr_base_url send_request with
    | Some u => if Py.truthy u then payload_dict ++ [("base_url", json_str u)]
                else payload_dict
    | None => payload_dict
    end in
  let payload_dict :=
    match sr_template_id send_request with
    | Some t => if Py.truthy t then payload_dict ++ [("template_id", json_str t)]
                else payload_dict
    | None => payload_dict
    end in
  let payload_dict :=
    if Py.truthy (sr_channel send_request)
    then payload_dict ++ [("channel", json_str (sr_channel send_request))]
    else payload_dict in
  let payload_dict :=
    match sr_timestamp send_request with
    | Some ts => payload_dict ++ [("timestamp", Py.str_of_int ts)]
    | None => payload_dict
    end in
  json_dumps_sorted payload_dict.

Definition verify_api_key_from_body (settings : Settings) (current_time : Z)
    (send_request : SendRequest) : M boundary_exn SendRequest :=
  let payload :=
    if Py.truthy_opt (sr_signature send_request)
    then body_payload send_request else "" in
  reject_or_pass
    (validate_api_key_with_signature settings current_time
       (sr_api_key send_request) (sr_timestamp send_request) payload
       (sr_signature send_request))
    send_request.

End dependencies.

(** ** [wxpush.routers.send] *)

Module send.

(** A GET request to [/send] whose query FastAPI has parsed: the typed
    parameters (defaults applied), the pairs of the query string, and the
    scheme and host of its URL.  A request with a required parameter
    missing, or with a [timestamp] that is not an integer, is answered 422
    by FastAPI and is none of these. *)
Record Query : Type := {
  q_api_key : string;
  q_title : string;
  q_content : string;
  q_appid : string;
  q_secret : string;
  q_userid : string;
  q_base_url : option string;
  q_template_id : option string;
  q_agentid : option string;
  q_channel : string;
  q_timestamp : option Z;
  q_signature : option string;
  q_items : list (string * string);
  q_scheme : string;
  q_netloc : string;
}.

Definition HTTP_400_BAD_REQUEST : Z := 400.
Definition HTTP_500_INTERNAL_SERVER_ERROR : Z := 500.

Definition msg_invalid_channel (channel : string) : string :=
  "无效的 channel 参数: " +:+ channel +:+ "，必须是 'wechat' 或 'workwechat'".

(** [api_key] is what [verify_api_key_dependency] returned.  The query
    parameters carry no bounds, so the [SendRequest] that is built at the
    end can be refused by pydantic; its [ValidationError], a [ValueError],
    is raised as it is. *)
Definition parse_send_request_from_query `{Pydantic} (q : Query) (api_key : string)
  : M boundary_exn SendRequest :=
  if negb (bool_decide (q_channel q ∈ ["wechat"; "workwechat"])) then
    raise (HTTPException HTTP_400_BAD_REQUEST
             (error_detail (PInt 40000) (PStr (msg_invalid_channel (q_channel q)))))
  else
    let send_request :=
      {| sr_api_key := api_key; sr_title := q_title q;
         sr_content := q_content q; sr_appid := q_appid q;
         sr_secret := q_secret q; sr_userid := q_userid q;
         sr_base_url := q_base_url q; sr_template_id := q_template_id q;
         sr_agentid := q_agentid q; sr_channel := q_channel q;
         sr_timestamp := q_timestamp q; sr_signature := q_signature q |} in
    if SendRequest_in_bounds send_request then ret send_request
    else raise (Unhandled (ValueError (send_request_error send_request))).

Definition hex_upper (n : nat) : ascii :=
  ascii_of_nat (if (n <? 10)%nat then 48 + n else 55 + n).

(** [urllib.parse.quote_plus] *)
Fixpoint quote_plus (s : string) : string :=
  match s with
  | EmptyString => ""
  | String c s' =>
      let n := nat_of_ascii c in
      let rest := quote_plus s' in
      if ((48 <=? n)%nat && (n <=? 57)%nat) || ((65 <=? n)%nat && (n <=? 90)%nat)
         || ((97 <=? n)%nat && (n <=? 122)%nat)
         || (n =? 95)%nat || (n =? 46)%nat || (n =? 45)%nat || (n =? 126)%nat
      then String c rest
      else if (n =? 32)%nat then String "+" rest
      else String "%" (String (hex_upper (n / 16)) (String (hex_upper (n mod 16)) rest))
  end.

Definition generate_detail_url (scheme netloc title content : string) : string :=
  let base_url := scheme +:+ "://" +:+ netloc in
  let detail_path := "/detail" in
  base_url +:+ detail_path +:+ "?"
  +:+ "title=" +:+ quote_plus title +:+ "&content=" +:+ quote_plus content.

(** The route handler.  A [SendResponse] that pydantic refuses is an
    exception of the [try], answered 500 as any other. *)
Definition send_message_handler `{PyInt} `{Pydantic} (settings : Settings) (v : Vendor)
    (scheme netloc : string) (send_request : SendRequest)
  : M boundary_exn (gmap string pyval) :=
  let base_url :=
    if negb (Py.truthy_opt (sr_base_url send_request))
    then Some (generate_detail_url scheme netloc
                 (sr_title send_request) (sr_content send_request))
    else sr_base_url send_request in
  try_except
    (result <-
       lift_exn
         (if bool_decide (sr_channel send_request = "workwechat") then
            WorkWeChatService.send_message settings v
              (sr_appid send_request) (sr_secret send_request)
              (sr_userid send_request) (sr_title send_request)
              (sr_content send_request) base_url (sr_agentid send_request)
          else
            WeChatService.send_message settings v
              (sr_appid send_request) (sr_secret send_request)
              (sr_userid send_request) (sr_title send_request)
              (sr_content send_request) base_url (sr_template_id send_request)) ;;
     if Val.ne_zero (dict_get result "errcode" (PInt 0)) then
       let errcode := dict_get result "errcode" (PInt 50000) in
       let errmsg := dict_get result "errmsg" (PStr "Unknown error") in
       raise (HTTPException HTTP_400_BAD_REQUEST (error_detail errcode errmsg))
     else
       lift_exn ([], SendResponse (dict_get result "errcode" (PInt 0))
                       (dict_get result "errmsg" (PStr "ok"))
                       (dict_get_none result "msgid")))
    (fun e =>
       match e with
       | HTTPException _ _ => raise e
       | Unhandled e' =>
           raise (HTTPException HTTP_500_INTERNAL_SERVER_ERROR
                    (error_detail (PInt 50000)
                       (PStr ("服务器内部错误: " +:+ exn_str e'))))
       end).

(** [GET /send]: the dependency [verify_api_key_dependency] is resolved
    first, then [parse_send_request_from_query], then the handler runs. *)
Definition send_message_get `{PyInt} `{Pydantic} (settings : Settings) (current_time : Z)
    (v : Vendor) (q : Query) : list call * http_response :=
  respond
    (api_key <- dependencies.verify_api_key_dependency settings current_time
                  (q_items q) (q_api_key q) (q_timestamp q) (q_signature q) ;;
     send_request <- parse_send_request_from_query q api_key ;;
     send_message_handler settings v (q_scheme q) (q_netloc q) send_request).

(** [POST /send] with a body FastAPI has validated into a [SendRequest]. *)
Definition send_message_post `{PyInt} `{Pydantic} (settings : Settings) (current_time : Z)
    (v : Vendor) (scheme netloc : string) (send_request : SendRequest)
  : list call * http_response :=
  respond
    (send_request <- dependencies.verify_api_key_from_body settings current_time
                       send_request ;;
     send_message_handler settings v scheme netloc send_request).

End send.

(** ** The adapters' error code, in the words of the specification

    "The vendor's numeric code when extractable from the error text, else a
    generic 50000 code": the text that follows the first [errcode=], up to
    the next [errcode=] and then up to the first comma, read as an integer. *)

Module Spec.

Fixpoint drop (n : nat) (s : string) : string :=
  match n, s with
  | S k, String _ s' => drop k s'
  | _, _ => s
  end.

(** What follows the first occurrence of [sep] in [s]. *)
Fixpoint after_first (sep s : string) : option string :=
  if String.prefix sep s then Some (drop (String.length sep) s)
  else match s with
       | EmptyString => None
       | String _ s' => after_first sep s'
       end.

(** What precedes the first occurrence of [sep] in [s]; all of [s] when
    there is none. *)
Fixpoint before_first (sep s : string) : string :=
  if String.prefix sep s then ""
  else match s with
       | EmptyString => ""
       | String c s' => String c (before_first sep s')
       end.

Definition errcode_text (msg : string) : option string :=
  rest ← after_first "errcode=" msg;
  Some (before_first "," (before_first "errcode=" rest)).

Definition errcode_of_text `{PyInt} (msg : string) : Z :=
  match errcode_text msg ≫= py_int with
  | Some n => n
  | None => 50000
  end.

(** The code of a caught failure. *)
Definition errcode_of_failure `{PyInt} (e : exn) : Z :=
  match e with
  | ValueError msg => errcode_of_text msg
  | _ => 50000
  end.

(** What a dispatcher makes of a caught failure. *)
Definition converted `{PyInt} (e : exn) (result : gmap string pyval) : Prop :=
  result !! "errcode" = Some (PInt (errcode_of_failure e))
  ∧ result !! "msgid" = Some PNone
  ∧ match e with
    | ValueError msg => result !! "errmsg" = Some (PStr msg)
    | _ => result !! "errmsg" = Some (PStr ("发送消息失败: " +:+ exn_str e))
    end.

End Spec.

(** ** Sample configurations, vendors and requests *)

Module Samples.

(** [int], for the ASCII texts of the samples. *)
Definition ascii_int : PyInt := Py.int_of_str.

(** The texts of validation errors, for the samples. *)
Definition validation_texts : Pydantic :=
  {| send_request_error := λ _, "1 validation error for SendRequest";
     send_response_error := λ _ _ _, "1 validation error for SendResponse" |}.

(** The keys of the test suite, no signing secret, no defaults. *)
Definition settings : Settings :=
  {| api_keys := Some ["test_api_key_12345"; "test_api_key_67890"];
     api_key_secret := None;
     default_wechat_template_id := None;
     default_workwechat_agentid := None;
     api_keys_file := [] |}.

(** No key configured at all. *)
Definition settings_without_keys : Settings :=
  {| api_keys := None;
     api_key_secret := None;
     default_wechat_template_id := None;
     default_workwechat_agentid := None;
     api_keys_file := [] |}.

(** A vendor that issues a token and accepts every message. *)
Definition vendor_ok : Vendor :=
  {| http_get := λ _ _,
       Ok (<["access_token" := PStr "t"]> (<["expires_in" := PInt 7200]> ∅));
     http_post := λ _ _,
       Ok (<["errcode" := PInt 0]> (<["errmsg" := PStr "ok"]>
           (<["msgid" := PInt 123456789]> ∅))) |}.

(** A vendor whose token endpoint answers with an error code. *)
Definition vendor_bad_credentials : Vendor :=
  {| http_get := λ _ _,
       Ok (<["errcode" := PInt 40013]> (<["errmsg" := PStr "invalid appid"]> ∅));
     http_post := λ _ _, Raise (RequestError "unreachable") |}.

(** A vendor that issues a token and then rejects the message with a code
    that is not a number, its text quoting another code. *)
Definition vendor_textual_code : Vendor :=
  {| http_get := λ _ _,
       Ok (<["access_token" := PStr "t"]> (<["expires_in" := PInt 7200]> ∅));
     http_post := λ _ _,
       Ok (<["errcode" := PStr "E1"]>
           (<["errmsg" := PStr "quota, see errcode=45009"]> ∅)) |}.

(** An HTTP client that fails, before any reply, with an error that is
    not a [ValueError] and whose text carries a vendor-style code. *)
Definition vendor_client_failure : Vendor :=
  {| http_get := λ _ _, Raise (OtherError "errcode=40001, client failure");
     http_post := λ _ _, Raise (OtherError "errcode=40001, client failure") |}.

Definition query (api_key channel : string)
    (timestamp : option Z) (signature : option string) : send.Query :=
  {| send.q_api_key := api_key;
     send.q_title := "title";
     send.q_content := "content";
     send.q_appid := "test_appid";
     send.q_secret := "test_secret";
     send.q_userid := "test_userid";
     send.q_base_url := None;
     send.q_template_id := Some "template";
     send.q_agentid := None;
     send.q_channel := channel;
     send.q_timestamp := timestamp;
     send.q_signature := signature;
     send.q_items := [("api_key", api_key); ("title", "title");
                      ("content", "content"); ("appid", "test_appid");
                      ("secret", "test_secret"); ("userid", "test_userid");
                      ("template_id", "template"); ("channel", channel)]
                     ++ match timestamp with
                        | Some ts => [("timestamp", Py.str_of_int ts)]
                        | None => []
                        end
                     ++ match signature with
                        | Some sig => [("signature", sig)]
                        | None => []
                        end;
     send.q_scheme := "http";
     send.q_netloc := "testserver" |}.

Definition send_request (api_key : string) : SendRequest :=
  {| sr_api_key := api_key; sr_title := "title"; sr_content := "content";
     sr_appid := "test_appid"; sr_secret := "test_secret";
     sr_userid := "test_userid"; sr_base_url := None;
     sr_template_id := Some "template"; sr_agentid := None;
     sr_channel := "wechat"; sr_timestamp := None; sr_signature := None |}.

End Samples.

(** ** The specification's sentences that the code does not satisfy, as
    stated *)

Module Stated.

(** "For every GET request whose channel value is neither 'wechat' nor
    'workwechat', the request is rejected with HTTP 400 and errcode
    40000." *)
Definition invalid_channel_is_400 `{PyInt} `{Pydantic} (settings : Settings) (current_time : Z)
    (v : Vendor) (q : send.Query) : Prop :=
  send.q_channel q ∉ ["wechat"; "workwechat"] ->
  ∃ detail,
    (send.send_message_get settings current_time v q).2
    = HTTPErrorResponse 400 detail
    ∧ detail !! "errcode" = Some (PInt 40000).

(** [msg] holds [errcode=NNN] somewhere, with [NNN] an integer literal of
    value [n] that ends the message or is followed by a comma. *)
Definition mentions_errcode `{PyInt} (msg : string) (n : Z) : Prop :=
  ∃ pre nnn post,
    msg = pre +:+ "errcode=" +:+ nnn +:+ post
    ∧ py_int nnn = Some n
    ∧ (post = "" ∨ String.prefix "," post = true).

(** The extraction rule read literally: any mention decides the code. *)
Definition any_mention_rule `{PyInt} (msg : string) (result : gmap string pyval)
  : Prop :=
  ∀ n, mentions_errcode msg n → result !! "errcode" = Some (PInt n).

(** "When a caught failure's message contains a substring 'errcode=NNN'
    with NNN parseable as an integer, the result's errcode equals that
    NNN": [outcome] is how the [try] of a dispatcher ended, [returned]
    what the dispatcher returned. *)
Definition errcode_is_any_mention `{PyInt} (outcome returned : M exn (gmap string pyval))
  : Prop :=
  ∀ e result,
    outcome.2 = Raise e -> returned.2 = Ok result ->
    any_mention_rule (exn_str e) result.


End Stated.

(** ** Further sample inputs *)

Module Cases.

(** The keys of the test suite with a signing secret. *)
Definition settings_signed : Settings :=
  {| api_keys := Some ["test_api_key_12345"; "test_api_key_67890"];
     api_key_secret := Some "test_secret";
     default_wechat_template_id := None;
     default_workwechat_agentid := None;
     api_keys_file := [] |}.

(** The hex HMAC-SHA256 of ["test_api_key_12345" + "1700000000" +
    "test_payload"] under ["test_secret"]. *)
Definition signature : string :=
  "809fcfe2809b99740b0c7bb61a1602dc994b2ad26b83939574ae7c33bff19dcc".

(** The query parameters of a GET request before it is signed, and the hex
    HMAC-SHA256 of key, timestamp and their payload under ["test_secret"]. *)
Definition query_items : list (string * string) :=
  [("api_key", "test_api_key_12345"); ("timestamp", "1700000000"); ("title", "t")].

Definition query_signature : string :=
  "d705b9555adb20742ae9db0d1e6c8584cd31f4b22f804eaab5a6a4845ff5484e".

(** A POST body with a signature over its payload. *)
Definition body_signature : string :=
  "e03fdab321587e5d1848c7dd437fdccdbcd67754bbf766c33f37af4b39c9e7b0".

Definition signed_body : SendRequest :=
  {| sr_api_key := "test_api_key_12345"; sr_title := "t"; sr_content := "c";
     sr_appid := "wx_appid"; sr_secret := "wx_secret"; sr_userid := "user_openid";
     sr_base_url := None; sr_template_id := Some "tpl"; sr_agentid := None;
     sr_channel := "wechat"; sr_timestamp := Some 1700000000;
     sr_signature := Some body_signature |}.

(** A POST body for the WeChat Work channel without an agent id. *)
Definition workwechat_body : SendRequest :=
  {| sr_api_key := "test_api_key_12345"; sr_title := "t"; sr_content := "c";
     sr_appid := "corpid"; sr_secret := "corpsecret"; sr_userid := "user";
     sr_base_url := None; sr_template_id := None; sr_agentid := None;
     sr_channel := "workwechat"; sr_timestamp := None; sr_signature := None |}.

(** The request that [parse_send_request_from_query] builds of the sample
    query for the WeChat Work channel. *)
Definition workwechat_query_body : SendRequest :=
  {| sr_api_key := "test_api_key_12345"; sr_title := "title";
     sr_content := "content"; sr_appid := "test_appid";
     sr_secret := "test_secret"; sr_userid := "test_userid";
     sr_base_url := None; sr_template_id := Some "template"; sr_agentid := None;
     sr_channel := "workwechat"; sr_timestamp := None; sr_signature := None |}.

(** A GET request with a listed key and an empty title. *)
Definition query_empty_title : send.Query :=
  {| send.q_api_key := "test_api_key_12345"; send.q_title := "";
     send.q_content := "content"; send.q_appid := "test_appid";
     send.q_secret := "test_secret"; send.q_userid := "test_userid";
     send.q_base_url := None; send.q_template_id := Some "template";
     send.q_agentid := None; send.q_channel := "wechat";
     send.q_timestamp := None; send.q_signature := None;
     send.q_items := [("api_key", "test_api_key_12345"); ("title", "");
                      ("content", "content"); ("appid", "test_appid");
                      ("secret", "test_secret"); ("userid", "test_userid");
                      ("template_id", "template")];
     send.q_scheme := "http"; send.q_netloc := "testserver" |}.

End Cases.

(** ** Character classes the statements use *)

(** Whether every character of [s] is a digit or one of the letters a to f,
    the alphabet of [hexdigest]. *)
Fixpoint is_lower_hex (s : string) : bool :=
  match s with
  | EmptyString => true
  | String c s' =>
      let n := nat_of_ascii c in
      (((48 <=? n)%nat && (n <=? 57)%nat) || ((97 <=? n)%nat && (n <=? 102)%nat))
      && is_lower_hex s'
  end.

(** The characters [quote_plus] leaves as they are: letters, digits and
    [_.-~]. *)
Definition url_unreserved (c : ascii) : bool :=
  let n := nat_of_ascii c in
  ((48 <=? n)%nat && (n <=? 57)%nat) || ((65 <=? n)%nat && (n <=? 90)%nat)
  || ((97 <=? n)%nat && (n <=? 122)%nat)
  || (n =? 95)%nat || (n =? 46)%nat || (n =? 45)%nat || (n =? 126)%nat.

Example sha256_abc :
  SHA256.hex (SHA256.digest (SHA256.encode "abc"))
  = "ba7816bf8f01cfea414140de5dae2223b00361a396177a9cb410ff61f20015ad".
Proof. vm_compute. reflexivity. Qed.

Example hmac_rfc4231_case2 :
  SHA256.hmac_hexdigest "Jefe" "what do ya want for nothing?"
  = "5bdcc146bf60754e6a042426089575c75a003f089d2739839dec58b964ec3843".
Proof. vm_compute. reflexivity. Qed.

Example sha256_empty :
  SHA256.hex (SHA256.digest [])
  = "e3b0c44298fc1c149afbf4c8996fb92427ae41e4649b934ca495991b7852b855".
Proof. vm_compute. reflexivity. Qed.

Example sha256_two_blocks :
  SHA256.hex (SHA256.digest
    (SHA256.encode "abcdbcdecdefdefgefghfghighijhijkijkljklmklmnlmnomnopnopq"))
  = "248d6a61d20638b8e5c026930c3e6039a33ce45964ff2167f6ecedd419db06c1".
Proof. vm_compute. reflexivity. Qed.

Example sha256_full_block :
  SHA256.hex (SHA256.digest (replicate 64 97))
  = "ffe054fe7ae0cb6dc65c3af9b61d5209f439851db43d0ba5997337df154668eb".
Proof. vm_compute. reflexivity. Qed.

Example hmac_rfc4231_case6 :
  SHA256.hex (SHA256.hmac (replicate 131 170)
    (SHA256.encode "Test Using Larger Than Block-Size Key - Hash Key First"))
  = "60e431591ee0b67f0d8a26aacbf5b77f8e0bc6213728c5140546040f0ee37f54".
Proof. vm_compute. reflexivity. Qed.

(** * Properties *)

Section properties.
Context {python_int : PyInt} {pydantic : Pydantic}.

(** ** Computations *)

Lemma bind_ok {E A B} (m : M E A) (k : A -> M E B) calls b :
  bind m k = (calls, Ok b) ->
  ∃ c1 a c2, m = (c1, Ok a) ∧ k a = (c2, Ok b) ∧ calls = c1 ++ c2.
Proof.
  destruct m as [c1 [a|e]]; simpl; [|discriminate].
  destruct (k a) as [c2 r] eqn:Hk. intros [= <- ->]. eauto 6.
Qed.

(** ** Strings *)

Section split.
Context (sep : string).

Lemma split_from_skip k cur s :
  Py.split_from sep k cur s = Py.split_from sep 0 cur (Spec.drop k s).
Proof.
  revert k; induction s as [|c s IH]; intros [|k]; try reflexivity.
  simpl Spec.drop. rewrite <- IH. reflexivity.
Qed.

Lemma split_from_head cur s :
  Py.split_from sep 0 cur s !! 0%nat
  = Some (String.rev_app cur (Spec.before_first sep s)).
Proof.
  revert cur; induction s as [|c s IH]; intros cur.
  - simpl. by destruct sep.
  - cbn [Py.split_from Spec.before_first].
    destruct (String.prefix sep (String c s)); [reflexivity|].
    by rewrite IH.
Qed.

Lemma split_head s : Py.split sep s !! 0%nat = Some (Spec.before_first sep s).
Proof. apply split_from_head. Qed.

Lemma prefix_empty_r : sep ≠ "" -> String.prefix sep "" = false.
Proof. by destruct sep. Qed.

Lemma split_from_second cur s :
  sep ≠ "" ->
  Py.split_from sep 0 cur s !! 1%nat
  = Spec.before_first sep <$> Spec.after_first sep s.
Proof.
  intros Hsep. revert cur; induction s as [|c s IH]; intros cur.
  - cbn [Py.split_from Spec.after_first]. by rewrite prefix_empty_r.
  - cbn [Py.split_from Spec.after_first].
    destruct (String.prefix sep (String c s)) eqn:Hp; [|apply IH].
    cbn [lookup list_lookup]. rewrite split_from_skip, split_from_head.
    destruct sep as [|c0 sep']; [done|].
    cbn [String.length Spec.drop fmap option_fmap option_map].
    by replace (S (String.length sep') - 1)%nat with (String.length sep') by lia.
Qed.

Lemma split_second s :
  sep ≠ "" ->
  Py.split sep s !! 1%nat = Spec.before_first sep <$> Spec.after_first sep s.
Proof. apply split_from_second. Qed.

Lemma contains_after_first s :
  Py.contains sep s = true <-> is_Some (Spec.after_first sep s).
Proof.
  induction s as [|c s IH]; cbn [Py.contains Spec.after_first].
  - destruct (String.prefix sep ""); split; eauto; done.
  - destruct (String.prefix sep (String c s)); [|exact IH].
    split; eauto.
Qed.

End split.

Lemma prefix_app sub s t :
  String.prefix sub s = true -> String.prefix sub (s +:+ t) = true.
Proof.
  revert s; induction sub as [|a sub IH]; intros s.
  - intros _. by destruct (s +:+ t).
  - destruct s as [|b s]; simpl; [done|].
    destruct (ascii_dec a b); [apply IH|done].
Qed.

Lemma contains_unfold sub s :
  Py.contains sub s
  = if String.prefix sub s then true
    else match s with
         | EmptyString => false
         | String _ s' => Py.contains sub s'
         end.
Proof. by destruct s. Qed.

Lemma contains_app sub s t :
  Py.contains sub s = true -> Py.contains sub (s +:+ t) = true.
Proof.
  induction s as [|c s IH]; rewrite (contains_unfold sub), (contains_unfold sub (_ +:+ t)).
  - destruct (String.prefix sub "") eqn:Hp; [|done].
    by rewrite (prefix_app _ _ t Hp).
  - destruct (String.prefix sub (String c s)) eqn:Hp.
    + by rewrite (prefix_app _ _ t Hp).
    + intros H. specialize (IH H). simpl. rewrite IH.
      destruct sub as [|a sub']; [done|].
      destruct (ascii_dec a c); [|done]. by destruct (String.prefix sub' _).
Qed.

(** The code read by the adapters is the one the specification describes. *)
Lemma errcode_of_message_spec msg : errcode_of_message msg = Spec.errcode_of_text msg.
Proof.
  unfold errcode_of_message, Spec.errcode_of_text, Spec.errcode_text.
  rewrite split_second by done.
  destruct (Py.contains "errcode=" msg) eqn:Hc.
  - apply contains_after_first in Hc as [rest Hrest]. rewrite Hrest. simpl.
    rewrite split_head. simpl.
    by destruct (py_int _).
  - destruct (Spec.after_first "errcode=" msg) eqn:Ha; [|done].
    assert (Py.contains "errcode=" msg = true) as Hc'
      by (apply contains_after_first; eauto).
    congruence.
Qed.

(** ** Signatures *)

Lemma hex_digit_ascii n :
  0 <= n < 16 -> (nat_of_ascii (SHA256.hex_digit n) <? 128)%nat = true.
Proof.
  intros Hn.
  assert (n = 0 ∨ n = 1 ∨ n = 2 ∨ n = 3 ∨ n = 4 ∨ n = 5 ∨ n = 6 ∨ n = 7
          ∨ n = 8 ∨ n = 9 ∨ n = 10 ∨ n = 11 ∨ n = 12 ∨ n = 13 ∨ n = 14
          ∨ n = 15) as Hcases by lia.
  repeat (destruct Hcases as [->|Hcases]; [reflexivity|]).
  by subst.
Qed.

Lemma hex_is_ascii bytes : Py.is_ascii (SHA256.hex bytes) = true.
Proof.
  induction bytes as [|b rest IH]; [reflexivity|].
  cbn [SHA256.hex Py.is_ascii].
  rewrite !hex_digit_ascii, IH; [reflexivity| |]; apply Z.mod_pos_bound; lia.
Qed.

Lemma compare_digest_ascii a b :
  Py.is_ascii a = true ->
  compare_digest a b = Ok (bool_decide (a = b))
  ∨ (a ≠ b ∧ ∃ msg, compare_digest a b = Raise (TypeError msg)).
Proof.
  intros Ha. unfold compare_digest. rewrite Ha.
  destruct (Py.is_ascii b) eqn:Hb; simpl.
  - left. f_equal.
    destruct (String.eqb_spec a b);
      [by rewrite bool_decide_true | by rewrite bool_decide_false].
  - right. split; [congruence|eauto].
Qed.

Lemma generate_signature_with_secret settings api_key timestamp payload secret :
  secret ≠ "" ->
  generate_signature settings api_key timestamp payload (Some secret)
  = Ok (SHA256.hmac_hexdigest secret (api_key +:+ Py.str_of_int timestamp +:+ payload)).
Proof. intros Hs. unfold generate_signature. by destruct secret. Qed.

Lemma verify_signature_value settings api_key timestamp payload s secret :
  secret ≠ "" ->
  verify_signature settings api_key timestamp payload s (Some secret)
  = Ok (bool_decide
          (s = SHA256.hmac_hexdigest secret
                 (api_key +:+ Py.str_of_int timestamp +:+ payload))).
Proof.
  intros Hs. unfold verify_signature.
  rewrite generate_signature_with_secret by done.
  set (expected := SHA256.hmac_hexdigest _ _).
  destruct (compare_digest_ascii expected s) as [->|[Hne [msg ->]]].
  - apply hex_is_ascii.
  - f_equal. apply bool_decide_ext. split; congruence.
  - by rewrite bool_decide_false by congruence.
Qed.

(** Whatever the secret, verification answers: it never raises. *)
Lemma verify_signature_returns settings api_key timestamp payload s secret :
  ∃ b, verify_signature settings api_key timestamp payload s secret = Ok b.
Proof.
  unfold verify_signature.
  destruct (generate_signature _ _ _ _ _) as [expected|e] eqn:Hg.
  - unfold compare_digest. destruct (_ && _); eauto.
  - unfold generate_signature in Hg. destruct (negb _); [|discriminate].
    injection Hg as <-. eauto.
Qed.

(** C2.  With a non-empty secret, [verify_signature] answers true exactly
    for the hex HMAC-SHA256 of [api_key + timestamp + payload] under that
    secret: it always answers, what [generate_signature] produces is that
    digest and verifies, and any other signature is rejected. *)
Theorem verify_signature_iff settings api_key timestamp payload s secret :
  secret ≠ "" ->
  let expected :=
    SHA256.hmac_hexdigest secret (api_key +:+ Py.str_of_int timestamp +:+ payload) in
  (verify_signature settings api_key timestamp payload s (Some secret) = Ok true
   <-> s = expected)
  ∧ generate_signature settings api_key timestamp payload (Some secret) = Ok expected
  ∧ verify_signature settings api_key timestamp payload expected (Some secret) = Ok true
  ∧ (s ≠ expected ->
     verify_signature settings api_key timestamp payload s (Some secret) = Ok false).
Proof.
  intros Hs expected. repeat split.
  - rewrite verify_signature_value by done. intros [= H%bool_decide_eq_true]. exact H.
  - intros ->. rewrite verify_signature_value by done. by rewrite bool_decide_true.
  - by apply generate_signature_with_secret.
  - rewrite verify_signature_value by done. by rewrite bool_decide_true.
  - intros Hne. rewrite verify_signature_value by done. by rewrite bool_decide_false.
Qed.

(** ** Timestamps *)

(** C3.  A timestamp is accepted exactly when it lies within 300 seconds
    of the current time, on either side; 300 is accepted and 301 is not. *)
Theorem verify_timestamp_window current_time timestamp :
  (verify_timestamp current_time timestamp TIMESTAMP_VALIDITY_WINDOW = true
   <-> Z.abs (current_time - timestamp) <= 300)
  ∧ verify_timestamp current_time (current_time - 300) TIMESTAMP_VALIDITY_WINDOW = true
  ∧ verify_timestamp current_time (current_time + 300) TIMESTAMP_VALIDITY_WINDOW = true
  ∧ verify_timestamp current_time (current_time - 301) TIMESTAMP_VALIDITY_WINDOW = false
  ∧ verify_timestamp current_time (current_time + 301) TIMESTAMP_VALIDITY_WINDOW = false.
Proof.
  unfold verify_timestamp, TIMESTAMP_VALIDITY_WINDOW.
  repeat split; try (apply Z.leb_le || apply Z.leb_gt); try (intros ?%Z.leb_le); lia.
Qed.

(** ** API keys *)

Lemma truthy_nonempty s : Py.truthy s = true <-> s ≠ "".
Proof. destruct s; simpl; split; congruence. Qed.

Lemma verify_api_key_spec settings api_key :
  verify_api_key settings api_key = true
  <-> api_key ≠ "" ∧ api_key ∈ api_keys_list settings.
Proof.
  unfold verify_api_key.
  destruct (Py.truthy api_key) eqn:Ht; simpl.
  - apply truthy_nonempty in Ht.
    destruct (api_keys_list settings) as [|k keys].
    + split; [done|]. intros [_ H]. by apply elem_of_nil in H.
    + rewrite bool_decide_eq_true. tauto.
  - split; [done|]. intros [H _]. apply truthy_nonempty in H. congruence.
Qed.

Lemma verify_api_key_false settings api_key :
  api_key = "" ∨ api_key ∉ api_keys_list settings ->
  verify_api_key settings api_key = false.
Proof.
  intros H. apply not_true_is_false. rewrite verify_api_key_spec. tauto.
Qed.

(** C9.  With no key configured every key is refused. *)
Theorem no_keys_rejects_all settings api_key :
  api_keys_list settings = [] -> verify_api_key settings api_key = false.
Proof.
  intros Hnone. apply verify_api_key_false. right. rewrite Hnone. apply not_elem_of_nil.
Qed.

(** C10.  For a valid key an empty signature passes as no signature:
    validation succeeds whatever the timestamp and the payload, as it does
    without a signature. *)
Theorem empty_signature_is_no_signature settings current_time api_key timestamp payload :
  api_key ≠ "" ->
  api_key ∈ api_keys_list settings ->
  validate_api_key_with_signature settings current_time api_key timestamp payload (Some "")
  = Ok (true, MSG_VALID)
  ∧ validate_api_key_with_signature settings current_time api_key timestamp payload (Some "")
    = validate_api_key_with_signature settings current_time api_key timestamp payload None.
Proof.
  intros Hne Hin. unfold validate_api_key_with_signature.
  assert (verify_api_key settings api_key = true) as ->
    by (apply verify_api_key_spec; done).
  done.
Qed.

(** ** The boundary *)

Lemma validate_returns settings current_time api_key timestamp payload signature :
  ∃ r, validate_api_key_with_signature settings current_time
         api_key timestamp payload signature = Ok r.
Proof.
  unfold validate_api_key_with_signature.
  destruct (negb _); [eauto|].
  destruct signature as [sig|]; [|eauto].
  destruct (Py.truthy sig); [|eauto].
  destruct timestamp as [ts|]; [|eauto].
  destruct (negb _); [eauto|].
  destruct (verify_signature_returns settings api_key ts payload sig None) as [[] ->];
    eauto.
Qed.

Lemma validate_invalid_key settings current_time api_key timestamp payload signature :
  api_key = "" ∨ api_key ∉ api_keys_list settings ->
  validate_api_key_with_signature settings current_time
    api_key timestamp payload signature = Ok (false, MSG_INVALID_KEY).
Proof.
  intros H. unfold validate_api_key_with_signature.
  by rewrite verify_api_key_false.
Qed.

Lemma errcode_of_invalid_key :
  dependencies.errcode_of_reason MSG_INVALID_KEY = ERRCODE_INVALID_API_KEY.
Proof. reflexivity. Qed.

Lemma errcode_of_timestamp_required :
  dependencies.errcode_of_reason MSG_TIMESTAMP_REQUIRED = ERRCODE_INVALID_API_KEY.
Proof. reflexivity. Qed.

Lemma errcode_of_timestamp_expired :
  dependencies.errcode_of_reason MSG_TIMESTAMP_EXPIRED = ERRCODE_TIMESTAMP_EXPIRED.
Proof. reflexivity. Qed.

Lemma errcode_of_signature_failed :
  dependencies.errcode_of_reason MSG_SIGNATURE_FAILED = ERRCODE_INVALID_SIGNATURE.
Proof. reflexivity. Qed.

(** A request the key dependency refuses is answered at once, with the
    dependency's error. *)
Lemma get_refused settings current_time v q status detail :
  dependencies.verify_api_key_dependency settings current_time
    (send.q_items q) (send.q_api_key q) (send.q_timestamp q) (send.q_signature q)
  = ([], Raise (HTTPException status detail)) ->
  send.send_message_get settings current_time v q = ([], HTTPErrorResponse status detail).
Proof. intros H. unfold send.send_message_get. by rewrite H. Qed.

Lemma post_refused settings current_time v scheme netloc r status detail :
  dependencies.verify_api_key_from_body settings current_time r
  = ([], Raise (HTTPException status detail)) ->
  send.send_message_post settings current_time v scheme netloc r
  = ([], HTTPErrorResponse status detail).
Proof. intros H. unfold send.send_message_post. by rewrite H. Qed.

Lemma get_invalid_key settings current_time v q :
  send.q_api_key q = "" ∨ send.q_api_key q ∉ api_keys_list settings ->
  send.send_message_get settings current_time v q
  = ([], HTTPErrorResponse 401 (error_detail (PInt 40001) (PStr MSG_INVALID_KEY))).
Proof.
  intros Hkey. apply get_refused.
  unfold dependencies.verify_api_key_dependency.
  by rewrite validate_invalid_key.
Qed.

Lemma post_invalid_key settings current_time v scheme netloc r :
  sr_api_key r = "" ∨ sr_api_key r ∉ api_keys_list settings ->
  send.send_message_post settings current_time v scheme netloc r
  = ([], HTTPErrorResponse 401 (error_detail (PInt 40001) (PStr MSG_INVALID_KEY))).
Proof.
  intros Hkey. apply post_refused.
  unfold dependencies.verify_api_key_from_body.
  by rewrite validate_invalid_key.
Qed.

(** C8.  A key that is empty or not in the credential set fails validation
    with the invalid-key reason whatever the timestamp, payload and
    signature, and both routes answer 401 with code 40001 without any
    outbound call. *)
Theorem invalid_key_rejected settings current_time api_key timestamp payload signature :
  api_key = "" ∨ api_key ∉ api_keys_list settings ->
  validate_api_key_with_signature settings current_time
    api_key timestamp payload signature = Ok (false, MSG_INVALID_KEY)
  ∧ (∀ v q,
       send.q_api_key q = api_key ->
       send.send_message_get settings current_time v q
       = ([], HTTPErrorResponse 401
                (error_detail (PInt 40001) (PStr MSG_INVALID_KEY))))
  ∧ (∀ v scheme netloc r,
       sr_api_key r = api_key ->
       send.send_message_post settings current_time v scheme netloc r
       = ([], HTTPErrorResponse 401
                (error_detail (PInt 40001) (PStr MSG_INVALID_KEY)))).
Proof.
  intros Hkey. split; [by apply validate_invalid_key|]. split.
  - intros v q <-. by apply get_invalid_key.
  - intros v scheme netloc r <-. by apply post_invalid_key.
Qed.

Lemma validate_missing_timestamp settings current_time api_key payload sig :
  api_key ≠ "" -> api_key ∈ api_keys_list settings -> sig ≠ "" ->
  validate_api_key_with_signature settings current_time api_key None payload (Some sig)
  = Ok (false, MSG_TIMESTAMP_REQUIRED).
Proof.
  intros Hne Hin Hsig. unfold validate_api_key_with_signature.
  assert (verify_api_key settings api_key = true) as ->
    by (apply verify_api_key_spec; done).
  apply truthy_nonempty in Hsig. by rewrite Hsig.
Qed.

(** Every valid key with a signature and no timestamp is answered 401 with
    the invalid-key code 40001, the message being the one about the
    timestamp. *)
Lemma missing_timestamp_response settings current_time v q sig :
  send.q_api_key q ≠ "" -> send.q_api_key q ∈ api_keys_list settings ->
  send.q_signature q = Some sig -> sig ≠ "" -> send.q_timestamp q = None ->
  send.send_message_get settings current_time v q
  = ([], HTTPErrorResponse 401
           (error_detail (PInt 40001) (PStr MSG_TIMESTAMP_REQUIRED))).
Proof.
  intros Hne Hin Hsig Hsig' Hts. apply get_refused.
  unfold dependencies.verify_api_key_dependency.
  rewrite Hsig, Hts. by rewrite validate_missing_timestamp.
Qed.

(** The key dependency either passes the key on or raises the 401 error;
    it makes no call. *)
Lemma key_dependency_outcome settings current_time items api_key timestamp signature :
  dependencies.verify_api_key_dependency settings current_time
    items api_key timestamp signature = ([], Ok api_key)
  ∨ ∃ detail,
      dependencies.verify_api_key_dependency settings current_time
        items api_key timestamp signature
      = ([], Raise (HTTPException 401 detail)).
Proof.
  unfold dependencies.verify_api_key_dependency, dependencies.reject_or_pass.
  destruct (validate_returns settings current_time api_key timestamp
              (if Py.truthy_opt signature
               then dependencies.query_payload items else "")
              signature) as [[[] msg] ->]; [by left|right; eauto].
Qed.

(** C7, as amended.  A GET request whose query FastAPI has parsed, with an
    unknown channel, never reaches a vendor.  The key dependency runs first
    and either passes or refuses the request: when it passes, the request
    is answered 400 with code 40000; when it refuses, the request is
    answered with the dependency's 401 error instead. *)
Theorem invalid_channel_rejected settings current_time v q :
  send.q_channel q ∉ ["wechat"; "workwechat"] ->
  (send.send_message_get settings current_time v q).1 = []
  ∧ (dependencies.verify_api_key_dependency settings current_time
       (send.q_items q) (send.q_api_key q) (send.q_timestamp q) (send.q_signature q)
     = ([], Ok (send.q_api_key q)) ->
     (send.send_message_get settings current_time v q).2
     = HTTPErrorResponse 400
         (error_detail (PInt 40000) (PStr (send.msg_invalid_channel (send.q_channel q)))))
  ∧ (∀ detail,
       dependencies.verify_api_key_dependency settings current_time
         (send.q_items q) (send.q_api_key q) (send.q_timestamp q) (send.q_signature q)
       = ([], Raise (HTTPException 401 detail)) ->
       (send.send_message_get settings current_time v q).2
       = HTTPErrorResponse 401 detail)
  ∧ (dependencies.verify_api_key_dependency settings current_time
       (send.q_items q) (send.q_api_key q) (send.q_timestamp q) (send.q_signature q)
     = ([], Ok (send.q_api_key q))
     ∨ ∃ detail,
         dependencies.verify_api_key_dependency settings current_time
           (send.q_items q) (send.q_api_key q) (send.q_timestamp q) (send.q_signature q)
         = ([], Raise (HTTPException 401 detail))).
Proof.
  intros Hch.
  assert (bool_decide (send.q_channel q ∈ ["wechat"; "workwechat"]) = false) as Hb
    by by rewrite bool_decide_false.
  assert (dependencies.verify_api_key_dependency settings current_time
            (send.q_items q) (send.q_api_key q) (send.q_timestamp q) (send.q_signature q)
          = ([], Ok (send.q_api_key q)) ->
          send.send_message_get settings current_time v q
          = ([], HTTPErrorResponse 400
                   (error_detail (PInt 40000)
                      (PStr (send.msg_invalid_channel (send.q_channel q)))))) as Hpassed.
  { intros Hpass. unfold send.send_message_get. rewrite Hpass.
    cbn [bind]. unfold send.parse_send_request_from_query. rewrite Hb. reflexivity. }
  split; [|split; [|split]].
  - destruct (key_dependency_outcome settings current_time (send.q_items q)
                (send.q_api_key q) (send.q_timestamp q) (send.q_signature q))
      as [Hpass|[detail Hrefused]].
    + by rewrite (Hpassed Hpass).
    + by rewrite (get_refused _ _ _ _ _ _ Hrefused).
  - intros Hpass. by rewrite (Hpassed Hpass).
  - intros detail Hrefused. by rewrite (get_refused _ _ _ _ _ _ Hrefused).
  - apply key_dependency_outcome.
Qed.

(** ** The adapters *)

Lemma send_result_dom errcode errmsg msgid :
  dom (send_result errcode errmsg msgid) = ({["errcode"; "errmsg"; "msgid"]} : gset string).
Proof. unfold send_result. rewrite !dom_insert_L, dom_empty_L. set_solver. Qed.

Lemma send_result_errcode errcode errmsg msgid :
  send_result errcode errmsg msgid !! "errcode" = Some (PInt errcode).
Proof. unfold send_result. by rewrite lookup_insert_eq. Qed.

Lemma send_result_errmsg errcode errmsg msgid :
  send_result errcode errmsg msgid !! "errmsg" = Some (PStr errmsg).
Proof.
  unfold send_result. rewrite lookup_insert_ne by done. by rewrite lookup_insert_eq.
Qed.

Lemma send_result_msgid errcode errmsg msgid :
  send_result errcode errmsg msgid !! "msgid" = Some msgid.
Proof.
  unfold send_result. rewrite !lookup_insert_ne by done. by rewrite lookup_insert_eq.
Qed.

Lemma handler_converts (e : exn) :
  ∃ result,
    match e with
    | ValueError error_msg =>
        ret (send_result (errcode_of_message error_msg) error_msg PNone)
    | _ => ret (send_result 50000 ("发送消息失败: " +:+ exn_str e) PNone)
    end = (([], Ok result) : M exn (gmap string pyval))
    ∧ dom result = ({["errcode"; "errmsg"; "msgid"]} : gset string)
    ∧ Spec.converted e result.
Proof.
  unfold Spec.converted.
  destruct e; eexists; (split; [reflexivity|]);
    rewrite send_result_dom, send_result_errcode, send_result_msgid, send_result_errmsg;
    cbn [Spec.errcode_of_failure]; rewrite <- ?errcode_of_message_spec; done.
Qed.

Lemma wechat_try_ok settings v appid secret userid title content base_url template_id
    calls result :
  WeChatService.send_message_try settings v appid secret userid title content
    base_url template_id = (calls, Ok result) ->
  ∃ msgid, result = send_result 0 "ok" msgid.
Proof.
  unfold WeChatService.send_message_try.
  intros (c1 & token & c2 & _ & (c3 & resp & c4 & _ & [= _ <-] & _)%bind_ok & _)%bind_ok.
  eauto.
Qed.

Lemma workwechat_try_ok v appid secret userid title content agentid_int calls result :
  WorkWeChatService.send_message_try v appid secret userid title content agentid_int
  = (calls, Ok result) ->
  ∃ msgid, result = send_result 0 "ok" msgid.
Proof.
  unfold WorkWeChatService.send_message_try.
  intros (c1 & token & c2 & _ & (c3 & resp & c4 & _ & [= _ <-] & _)%bind_ok & _)%bind_ok.
  eauto.
Qed.

Lemma wechat_send_message_cases settings v appid secret userid title content
    base_url template_id :
  ∃ result,
    (WeChatService.send_message settings v appid secret userid title content
       base_url template_id).2 = Ok result
    ∧ dom result = ({["errcode"; "errmsg"; "msgid"]} : gset string)
    ∧ (∀ ok, (WeChatService.send_message_try settings v appid secret userid title
                content base_url template_id).2 = Ok ok -> result = ok)
    ∧ (∀ e, (WeChatService.send_message_try settings v appid secret userid title
               content base_url template_id).2 = Raise e -> Spec.converted e result).
Proof.
  unfold WeChatService.send_message, try_except.
  destruct (WeChatService.send_message_try _ _ _ _ _ _ _ _ _) as [calls [ok|e]] eqn:Htry.
  - destruct (wechat_try_ok _ _ _ _ _ _ _ _ _ _ _ Htry) as [msgid ->].
    eexists. split; [reflexivity|].
    split; [apply send_result_dom|]. split; [by intros ? [= <-]|by intros ? [=]].
  - destruct (handler_converts e) as (result & -> & Hdom & Hconv).
    exists result. split; [reflexivity|]. split; [exact Hdom|].
    split; [by intros ? [=]|by intros ? [= <-]].
Qed.

Lemma workwechat_send_message_cases settings v appid secret userid title content
    base_url agentid :
  ∃ result,
    (WorkWeChatService.send_message settings v appid secret userid title content
       base_url agentid).2 = Ok result
    ∧ dom result = ({["errcode"; "errmsg"; "msgid"]} : gset string)
    ∧ (∀ a n,
         WorkWeChatService.resolve_agentid settings agentid = Some a ->
         py_int a = Some n ->
         (∀ ok, (WorkWeChatService.send_message_try v appid secret userid title
                   content n).2 = Ok ok -> result = ok)
         ∧ (∀ e, (WorkWeChatService.send_message_try v appid secret userid title
                    content n).2 = Raise e -> Spec.converted e result)).
Proof.
  unfold WorkWeChatService.send_message.
  destruct (WorkWeChatService.resolve_agentid settings agentid) as [a|].
  2: { eexists. split; [reflexivity|]. split; [apply send_result_dom|]. by intros ? ? [=]. }
  destruct (py_int a) as [n|] eqn:Hint.
  2: { eexists. split; [reflexivity|]. split; [apply send_result_dom|].
       intros ? ? [= <-] ?. congruence. }
  unfold try_except.
  destruct (WorkWeChatService.send_message_try _ _ _ _ _ _ _) as [calls [ok|e]] eqn:Htry.
  - destruct (workwechat_try_ok _ _ _ _ _ _ _ _ _ Htry) as [msgid ->].
    eexists. split; [reflexivity|].
    split; [apply send_result_dom|]. intros ? n' [= <-] Hn'.
    assert (n' = n) as -> by congruence. rewrite Htry.
    split; [by intros ? [= <-]|by intros ? [=]].
  - destruct (handler_converts e) as (result & -> & Hdom & Hconv).
    exists result. split; [reflexivity|]. split; [exact Hdom|].
    intros ? n' [= <-] Hn'. assert (n' = n) as -> by congruence. rewrite Htry.
    split; [by intros ? [=]|by intros ? [= <-]].
Qed.

(** *** The code of a vendor error

    The messages the code makes of a vendor reply with a non-zero errcode
    start with a fixed text, then [errcode=], the code, a comma and the
    vendor's own words.  Whatever those words are, the text read back is
    the vendor's integer. *)

Lemma prefix_nil s : String.prefix "" s = true.
Proof. by destruct s. Qed.

Lemma append_nil_r s : s +:+ "" = s.
Proof.
  induction s as [|c s IH]; [done|].
  change (String c (s +:+ "") = String c s). by rewrite IH.
Qed.

Lemma append_cons c s t : String c s +:+ t = String c (s +:+ t).
Proof. reflexivity. Qed.

Lemma contains_char_cons c0 c s :
  Py.contains (String c0 "") (String c s) = false ->
  c0 ≠ c ∧ Py.contains (String c0 "") s = false.
Proof.
  rewrite contains_unfold. simpl.
  destruct (ascii_dec c0 c) as [->|Hne]; [by rewrite prefix_nil|]. done.
Qed.

(** A text without the first character of [sep] holds no start of it. *)
Lemma before_first_skip c0 sep' d y :
  Py.contains (String c0 "") d = false ->
  Spec.before_first (String c0 sep') (d +:+ y)
  = d +:+ Spec.before_first (String c0 sep') y.
Proof.
  induction d as [|c d IH]; [done|].
  intros [Hne Hd]%contains_char_cons.
  rewrite !append_cons. cbn [Spec.before_first String.prefix].
  destruct (ascii_dec c0 c) as [->|_]; [done|]. by rewrite IH.
Qed.

Lemma before_first_stop c0 d y :
  Py.contains (String c0 "") d = false ->
  Spec.before_first (String c0 "") (d +:+ String c0 y) = d.
Proof.
  intros Hd. rewrite before_first_skip by done.
  cbn [Spec.before_first String.prefix].
  destruct (ascii_dec c0 c0); [|done]. by rewrite prefix_nil, append_nil_r.
Qed.

Lemma uint_digits_plain d :
  Py.contains "e" (NilEmpty.string_of_uint d) = false
  ∧ Py.contains "," (NilEmpty.string_of_uint d) = false.
Proof. induction d; cbn; tauto. Qed.

Lemma str_of_int_plain n :
  Py.contains "e" (Py.str_of_int n) = false
  ∧ Py.contains "," (Py.str_of_int n) = false.
Proof.
  unfold Py.str_of_int.
  destruct (Z.to_int n) as [d|d]; cbn [NilZero.string_of_int];
    destruct (uint_digits_plain d); destruct d; cbn; tauto.
Qed.

Lemma errcode_field_of_integer n errmsg :
  Spec.before_first ","
    (Spec.before_first "errcode=" (Py.str_of_int n +:+ ", errmsg=" +:+ errmsg))
  = Py.str_of_int n.
Proof.
  destruct (str_of_int_plain n) as [He Hc].
  rewrite before_first_skip by done.
  cbv beta iota delta [String.append]; fold String.append.
  cbn [Spec.before_first String.prefix]. simpl (ascii_dec _ _).
  cbv beta iota. by apply before_first_stop.
Qed.

Lemma after_first_errcode rest :
  Spec.after_first "errcode=" ("WeChat API error: errcode=" +:+ rest) = Some rest
  ∧ Spec.after_first "errcode=" ("微信 API 错误: errcode=" +:+ rest) = Some rest
  ∧ Spec.after_first "errcode=" ("企业微信 API 错误: errcode=" +:+ rest) = Some rest.
Proof.
  repeat split;
    cbv beta iota delta [String.append]; fold String.append;
    cbn; by rewrite prefix_nil.
Qed.

(** The code read from each of the messages made of a vendor reply is the
    reply's integer errcode. *)
Lemma vendor_errcode_read n errmsg :
  py_int (Py.str_of_int n) = Some n ->
  errcode_of_message
    ("WeChat API error: errcode=" +:+ Py.str_of_int n +:+ ", errmsg=" +:+ errmsg) = n
  ∧ errcode_of_message
      ("微信 API 错误: errcode=" +:+ Py.str_of_int n +:+ ", errmsg=" +:+ errmsg) = n
  ∧ errcode_of_message
      ("企业微信 API 错误: errcode=" +:+ Py.str_of_int n +:+ ", errmsg=" +:+ errmsg) = n.
Proof.
  intros Hint.
  destruct (after_first_errcode (Py.str_of_int n +:+ ", errmsg=" +:+ errmsg))
    as (Hhttp & Hwechat & Hwork).
  rewrite !errcode_of_message_spec.
  unfold Spec.errcode_of_text, Spec.errcode_text.
  rewrite Hhttp, Hwechat, Hwork. cbn [mbind option_bind].
  by rewrite errcode_field_of_integer, Hint.
Qed.

(** Platform B: a token reply with a non-zero integer errcode comes back as
    that code, after the one call that fetched it. *)
Lemma workwechat_token_error settings v appid secret userid title content
    base_url agentid a k reply n :
  WorkWeChatService.resolve_agentid settings agentid = Some a ->
  py_int a = Some k ->
  http_get v WorkWeChatService.WORKWECHAT_TOKEN_URL
    [("corpid", appid); ("corpsecret", secret)] = Ok reply ->
  reply !! "errcode" = Some (PInt n) -> n ≠ 0 ->
  py_int (Py.str_of_int n) = Some n ->
  WorkWeChatService.send_message settings v appid secret userid title content
    base_url agentid
  = ([GET WorkWeChatService.WORKWECHAT_TOKEN_URL
        [("corpid", appid); ("corpsecret", secret)]],
     Ok (send_result n
           ("企业微信 API 错误: errcode=" +:+ Py.str_of_int n +:+ ", errmsg="
            +:+ Val.format (dict_get reply "errmsg" (PStr "Unknown error")))
           PNone)).
Proof.
  intros Hres Ha Hget Hcode Hn Hint.
  unfold WorkWeChatService.send_message. rewrite Hres, Ha.
  unfold WorkWeChatService.send_message_try, WorkWeChatService.get_access_token,
    http_client.fetch_json.
  rewrite Hget. cbn [bind]. unfold dict_has, dict_get. rewrite Hcode.
  rewrite bool_decide_true by eauto.
  cbn [default from_option id Val.ne_zero Val.format].
  destruct (Z.eqb_spec n 0) as [|_]; [done|].
  cbn [negb bind raise try_except ret app].
  by rewrite (proj2 (proj2 (vendor_errcode_read n _ Hint))).
Qed.

(** Platform A: once the token is fetched, a send reply with a non-zero
    integer errcode comes back as that code. *)
Lemma wechat_send_error settings v appid secret userid title content
    base_url template_id tid calls token reply n :
  template_id = Some tid -> tid ≠ "" ->
  WeChatService.get_access_token v appid secret = (calls, Ok token) ->
  (∀ url body, http_post v url body = Ok reply) ->
  reply !! "errcode" = Some (PInt n) -> n ≠ 0 ->
  py_int (Py.str_of_int n) = Some n ->
  (WeChatService.send_message settings v appid secret userid title content
     base_url template_id).2
  = Ok (send_result n
          ("微信 API 错误: errcode=" +:+ Py.str_of_int n +:+ ", errmsg="
           +:+ Val.format (dict_get reply "errmsg" (PStr "Unknown error")))
          PNone).
Proof.
  intros -> Htid%truthy_nonempty Htoken Hpost Hcode Hn Hint.
  unfold WeChatService.send_message, WeChatService.send_message_try.
  rewrite Htoken. cbn [bind].
  unfold WeChatService.send_template_message, http_client.post_json.
  cbn [Py.truthy_opt]. rewrite Htid. cbn [negb]. rewrite Htid. cbn [negb].
  rewrite Hpost. cbn [bind]. unfold dict_has, dict_get. rewrite Hcode.
  rewrite bool_decide_true by eauto.
  cbn [default from_option id Val.ne_zero Val.format].
  destruct (Z.eqb_spec n 0) as [|_]; [done|].
  cbn [negb bind raise try_except ret app snd].
  by rewrite (proj1 (proj2 (vendor_errcode_read n _ Hint))).
Qed.

(** C1, as amended.  Both dispatchers always return a dict with exactly the
    keys errcode, errmsg and msgid; nothing is raised.  When the [try]
    ends normally that dict is its result.  When it fails with a
    [ValueError], errcode is the integer read from the text between the first
    [errcode=] of the message and the next comma, and 50000 when there is no
    such text or it is not an integer; when it fails with any other exception
    errcode is 50000.  In both cases msgid is [None]. *)
Theorem dispatchers_return_structured_result
    settings v appid secret userid title content base_url :
  (∀ template_id,
     ∃ result,
       (WeChatService.send_message settings v appid secret userid title content
          base_url template_id).2 = Ok result
       ∧ dom result = ({["errcode"; "errmsg"; "msgid"]} : gset string)
       ∧ (∀ ok, (WeChatService.send_message_try settings v appid secret userid title
                   content base_url template_id).2 = Ok ok -> result = ok)
       ∧ (∀ e, (WeChatService.send_message_try settings v appid secret userid title
                  content base_url template_id).2 = Raise e ->
               Spec.converted e result))
  ∧ (∀ agentid,
       ∃ result,
         (WorkWeChatService.send_message settings v appid secret userid title content
            base_url agentid).2 = Ok result
         ∧ dom result = ({["errcode"; "errmsg"; "msgid"]} : gset string)
         ∧ (∀ a n,
              WorkWeChatService.resolve_agentid settings agentid = Some a ->
              py_int a = Some n ->
              (∀ ok, (WorkWeChatService.send_message_try v appid secret userid title
                        content n).2 = Ok ok -> result = ok)
              ∧ (∀ e, (WorkWeChatService.send_message_try v appid secret userid title
                         content n).2 = Raise e -> Spec.converted e result))).
Proof.
  split; intros ?;
    [apply wechat_send_message_cases | apply workwechat_send_message_cases].
Qed.

Lemma resolve_agentid_absent settings agentid :
  Py.truthy_opt agentid = false ->
  Py.truthy_opt (default_workwechat_agentid settings) = false ->
  WorkWeChatService.resolve_agentid settings agentid = None.
Proof.
  intros Ha Hd. unfold WorkWeChatService.resolve_agentid. by rewrite Ha; simpl; rewrite Hd.
Qed.

Lemma resolve_agentid_present settings agentid a :
  (agentid = Some a ∧ a ≠ "")
  ∨ (Py.truthy_opt agentid = false
     ∧ default_workwechat_agentid settings = Some a ∧ a ≠ "") ->
  WorkWeChatService.resolve_agentid settings agentid = Some a.
Proof.
  unfold WorkWeChatService.resolve_agentid.
  intros [[-> Ha]|(Hn & Hd & Ha)]; apply truthy_nonempty in Ha.
  - simpl. rewrite Ha. simpl. by rewrite Ha.
  - rewrite Hn, Hd. simpl. by rewrite Ha.
Qed.

(** C5.  Without an agent id (no argument and no configured default) the
    adapter returns the result 40000 whose message names agentid; with an
    agent id that [int] does not accept it returns the result 40000 saying
    that agentid must be a valid integer.  In both cases msgid is [None],
    nothing is raised and no outbound call is made. *)
Theorem agentid_checked_before_any_call
    settings v appid secret userid title content base_url agentid :
  (Py.truthy_opt agentid = false ->
   Py.truthy_opt (default_workwechat_agentid settings) = false ->
   WorkWeChatService.send_message settings v appid secret userid title content
     base_url agentid
   = ([], Ok (send_result 40000 WorkWeChatService.MSG_AGENTID_REQUIRED PNone))
   ∧ Py.contains "agentid" WorkWeChatService.MSG_AGENTID_REQUIRED = true)
  ∧ (∀ a,
       (agentid = Some a ∧ a ≠ "")
       ∨ (Py.truthy_opt agentid = false
          ∧ default_workwechat_agentid settings = Some a ∧ a ≠ "") ->
       py_int a = None ->
       WorkWeChatService.send_message settings v appid secret userid title content
         base_url agentid
       = ([], Ok (send_result 40000 (WorkWeChatService.msg_agentid_not_integer a) PNone))
       ∧ Py.contains "agentid 必须是有效的整数"
           (WorkWeChatService.msg_agentid_not_integer a) = true).
Proof.
  split.
  - intros Ha Hd. split; [|reflexivity].
    unfold WorkWeChatService.send_message. by rewrite resolve_agentid_absent.
  - intros a Hpresent Hint. split.
    + unfold WorkWeChatService.send_message.
      by rewrite (resolve_agentid_present _ _ _ Hpresent), Hint.
    + unfold WorkWeChatService.msg_agentid_not_integer.
      by apply (contains_app _ "agentid 必须是有效的整数，当前值: ").
Qed.



(** * Further properties of the code *)

(** ** Validation *)

Lemma generate_signature_configured settings api_key timestamp payload secret :
  api_key_secret settings = Some secret -> secret ≠ "" ->
  generate_signature settings api_key timestamp payload None
  = Ok (SHA256.hmac_hexdigest secret (api_key +:+ Py.str_of_int timestamp +:+ payload)).
Proof.
  intros Hcfg Hs%truthy_nonempty. unfold generate_signature.
  by rewrite Hcfg, Hs, Hs.
Qed.

Lemma verify_signature_configured settings api_key timestamp payload s secret :
  api_key_secret settings = Some secret -> secret ≠ "" ->
  verify_signature settings api_key timestamp payload s None
  = Ok (bool_decide
          (s = SHA256.hmac_hexdigest secret
                 (api_key +:+ Py.str_of_int timestamp +:+ payload))).
Proof.
  intros Hcfg Hs. unfold verify_signature.
  rewrite (generate_signature_configured _ _ _ _ secret) by done.
  set (expected := SHA256.hmac_hexdigest _ _).
  destruct (compare_digest_ascii expected s) as [->|[Hne [msg ->]]].
  - apply hex_is_ascii.
  - f_equal. apply bool_decide_ext. split; congruence.
  - by rewrite bool_decide_false by congruence.
Qed.

Lemma generate_signature_unconfigured settings api_key timestamp payload :
  api_key_secret settings = None ∨ api_key_secret settings = Some "" ->
  generate_signature settings api_key timestamp payload None
  = Raise (ValueError "Signature secret is required for generating signature").
Proof. intros [Hcfg|Hcfg]; unfold generate_signature; by rewrite Hcfg. Qed.

Lemma verify_api_key_true settings api_key :
  api_key ≠ "" -> api_key ∈ api_keys_list settings ->
  verify_api_key settings api_key = true.
Proof. intros. by apply verify_api_key_spec. Qed.

(** X1.  The verdict on a signed request with a valid key, when a signing
    secret is configured: outside the window the timestamp is reported as
    expired whatever the signature; inside it the request passes exactly
    when the signature is the HMAC of key, timestamp and payload under the
    configured secret. *)
Theorem signed_request_verdict
    settings current_time api_key timestamp payload signature secret :
  api_key ≠ "" -> api_key ∈ api_keys_list settings ->
  signature ≠ "" ->
  api_key_secret settings = Some secret -> secret ≠ "" ->
  validate_api_key_with_signature settings current_time
    api_key (Some timestamp) payload (Some signature)
  = Ok (if bool_decide (300 < Z.abs (current_time - timestamp))
        then (false, MSG_TIMESTAMP_EXPIRED)
        else if bool_decide
                  (signature
                   = SHA256.hmac_hexdigest secret
                       (api_key +:+ Py.str_of_int timestamp +:+ payload))
             then (true, MSG_VALID)
             else (false, MSG_SIGNATURE_FAILED)).
Proof.
  intros Hne Hin Hsig%truthy_nonempty Hcfg Hsecret.
  unfold validate_api_key_with_signature.
  rewrite verify_api_key_true, Hsig by done. cbn [negb].
  unfold verify_timestamp, TIMESTAMP_VALIDITY_WINDOW.
  destruct (Z.leb_spec (Z.abs (current_time - timestamp)) 300) as [Hin_window|Hout].
  - rewrite bool_decide_false by lia. cbn [negb].
    rewrite (verify_signature_configured _ _ _ _ _ secret) by done.
    by destruct (bool_decide _).
  - by rewrite bool_decide_true by lia.
Qed.

(** X2.  Validation never accepts a key that is not in the credential set:
    whenever it answers ok, the key is non-empty and listed, and the message
    is the success message. *)
Theorem accepted_key_is_listed
    settings current_time api_key timestamp payload signature msg :
  validate_api_key_with_signature settings current_time
    api_key timestamp payload signature = Ok (true, msg) ->
  api_key ≠ "" ∧ api_key ∈ api_keys_list settings ∧ msg = MSG_VALID.
Proof.
  unfold validate_api_key_with_signature.
  destruct (verify_api_key settings api_key) eqn:Hkey; cbn [negb]; [|discriminate].
  apply verify_api_key_spec in Hkey as [Hne Hin].
  intros Hok. split; [done|]. split; [done|].
  destruct signature as [sig|]; [|congruence].
  destruct (Py.truthy sig); [|congruence].
  destruct timestamp as [ts|]; [|discriminate].
  destruct (negb _); [discriminate|].
  destruct (verify_signature _ _ _ _ _ _) as [[]|]; congruence.
Qed.

(** X3.  Without a signing secret in the configuration no signature is
    ever accepted: generating one raises, verification answers false
    without raising, and a signed request with a valid key and a timestamp
    inside the window is refused for its signature. *)
Theorem signature_needs_configured_secret
    settings current_time api_key timestamp payload signature :
  api_key_secret settings = None ∨ api_key_secret settings = Some "" ->
  generate_signature settings api_key timestamp payload None
  = Raise (ValueError "Signature secret is required for generating signature")
  ∧ verify_signature settings api_key timestamp payload signature None = Ok false
  ∧ (api_key ≠ "" -> api_key ∈ api_keys_list settings -> signature ≠ "" ->
     Z.abs (current_time - timestamp) <= 300 ->
     validate_api_key_with_signature settings current_time
       api_key (Some timestamp) payload (Some signature)
     = Ok (false, MSG_SIGNATURE_FAILED)).
Proof.
  intros Hcfg.
  assert (verify_signature settings api_key timestamp payload signature None = Ok false)
    as Hverify.
  { unfold verify_signature. by rewrite generate_signature_unconfigured. }
  split; [by apply generate_signature_unconfigured|]. split; [exact Hverify|].
  intros Hne Hin Hsig%truthy_nonempty Hwindow.
  unfold validate_api_key_with_signature.
  rewrite verify_api_key_true, Hsig by done. cbn [negb].
  unfold verify_timestamp, TIMESTAMP_VALIDITY_WINDOW.
  destruct (Z.leb_spec (Z.abs (current_time - timestamp)) 300); [|lia].
  cbn [negb]. by rewrite Hverify.
Qed.

(** ** The shape of a signature *)

Lemma round_length st kw : length (SHA256.round st kw) = length st.
Proof.
  unfold SHA256.round.
  do 9 (destruct st as [|? st]; [reflexivity|]). reflexivity.
Qed.

Lemma fold_round_length l st : length (fold_left SHA256.round l st) = length st.
Proof.
  revert st; induction l as [|kw l IH]; intros st; [reflexivity|].
  cbn [fold_left]. by rewrite IH, round_length.
Qed.

Lemma compress_length h block : length (SHA256.compress h block) = length h.
Proof.
  unfold SHA256.compress. rewrite length_zip_with, fold_round_length. lia.
Qed.

Lemma fold_compress_length blocks h :
  length (fold_left SHA256.compress blocks h) = length h.
Proof.
  revert h; induction blocks as [|b blocks IH]; intros h; [reflexivity|].
  cbn [fold_left]. by rewrite IH, compress_length.
Qed.

Lemma digest_length msg : length (SHA256.digest msg) = 32%nat.
Proof.
  unfold SHA256.digest.
  assert (∀ l, length (flat_map (SHA256.bytes_of_word 4) l) = (4 * length l)%nat) as Hflat.
  { induction l as [|w l IH]; [reflexivity|].
    cbn [flat_map]. rewrite length_app, IH. cbn [SHA256.bytes_of_word length]. lia. }
  rewrite Hflat, fold_compress_length. reflexivity.
Qed.

Lemma hex_length bytes : String.length (SHA256.hex bytes) = (2 * length bytes)%nat.
Proof.
  induction bytes as [|b rest IH]; [reflexivity|].
  cbn [SHA256.hex String.length length]. rewrite IH. lia.
Qed.

Lemma hex_digit_lower n :
  0 <= n < 16 ->
  let c := nat_of_ascii (SHA256.hex_digit n) in
  (((48 <=? c)%nat && (c <=? 57)%nat) || ((97 <=? c)%nat && (c <=? 102)%nat)) = true.
Proof.
  intros Hn.
  assert (n = 0 ∨ n = 1 ∨ n = 2 ∨ n = 3 ∨ n = 4 ∨ n = 5 ∨ n = 6 ∨ n = 7
          ∨ n = 8 ∨ n = 9 ∨ n = 10 ∨ n = 11 ∨ n = 12 ∨ n = 13 ∨ n = 14
          ∨ n = 15) as Hcases by lia.
  repeat (destruct Hcases as [->|Hcases]; [reflexivity|]).
  by subst.
Qed.

Lemma hex_is_lower_hex bytes : is_lower_hex (SHA256.hex bytes) = true.
Proof.
  induction bytes as [|b rest IH]; [reflexivity|].
  cbn [SHA256.hex is_lower_hex].
  rewrite !hex_digit_lower, IH; [reflexivity| |]; apply Z.mod_pos_bound; lia.
Qed.

(** X4.  Whatever is signed, a signature that [generate_signature] returns
    is 64 characters long, all of them lower-case hexadecimal digits. *)
Theorem signature_is_64_hex_digits settings api_key timestamp payload secret signature :
  generate_signature settings api_key timestamp payload secret = Ok signature ->
  String.length signature = 64%nat ∧ is_lower_hex signature = true.
Proof.
  unfold generate_signature. destruct (negb _); [discriminate|].
  intros [= <-]. unfold SHA256.hmac_hexdigest, SHA256.hmac.
  by rewrite hex_length, digest_length, hex_is_lower_hex.
Qed.

(** ** The key check of the two routes *)

(** Every verdict of the validation: acceptance of a listed key, or one of
    four refusals, each with the code the dependencies read from it. *)
Lemma validate_verdicts settings current_time api_key timestamp payload signature :
  (validate_api_key_with_signature settings current_time
     api_key timestamp payload signature = Ok (true, MSG_VALID)
   ∧ api_key ∈ api_keys_list settings)
  ∨ ∃ msg code,
      (msg, code) ∈ [(MSG_INVALID_KEY, 40001); (MSG_TIMESTAMP_REQUIRED, 40001);
                     (MSG_TIMESTAMP_EXPIRED, 40003); (MSG_SIGNATURE_FAILED, 40002)]
      ∧ validate_api_key_with_signature settings current_time
          api_key timestamp payload signature = Ok (false, msg)
      ∧ dependencies.errcode_of_reason msg = code.
Proof.
  unfold validate_api_key_with_signature.
  destruct (verify_api_key settings api_key) eqn:Hkey; cbn [negb].
  - apply verify_api_key_spec in Hkey as [_ Hin].
    destruct signature as [sig|]; [|by left].
    destruct (Py.truthy sig); [|by left].
    destruct timestamp as [ts|].
    + destruct (negb _).
      * right. exists MSG_TIMESTAMP_EXPIRED, 40003.
        split; [set_solver|]. by rewrite errcode_of_timestamp_expired.
      * destruct (verify_signature_returns settings api_key ts payload sig None)
          as [[] ->]; [by left|].
        right. exists MSG_SIGNATURE_FAILED, 40002.
        split; [set_solver|]. by rewrite errcode_of_signature_failed.
    + right. exists MSG_TIMESTAMP_REQUIRED, 40001.
      split; [set_solver|]. by rewrite errcode_of_timestamp_required.
  - right. exists MSG_INVALID_KEY, 40001.
    split; [set_solver|]. by rewrite errcode_of_invalid_key.
Qed.

(** X5.  The key check of both routes has five outcomes and makes no call.
    Either the request passes unchanged, and its key is in the credential
    set, or it is answered 401 with one of four message and code pairs,
    before anything is sent to a vendor. *)
Theorem key_check_outcomes settings current_time v :
  (∀ q,
     (dependencies.verify_api_key_dependency settings current_time
        (send.q_items q) (send.q_api_key q) (send.q_timestamp q) (send.q_signature q)
      = ([], Ok (send.q_api_key q))
      ∧ send.q_api_key q ∈ api_keys_list settings)
     ∨ ∃ msg code,
         (msg, code) ∈ [(MSG_INVALID_KEY, 40001); (MSG_TIMESTAMP_REQUIRED, 40001);
                        (MSG_TIMESTAMP_EXPIRED, 40003); (MSG_SIGNATURE_FAILED, 40002)]
         ∧ send.send_message_get settings current_time v q
           = ([], HTTPErrorResponse 401 (error_detail (PInt code) (PStr msg))))
  ∧ (∀ scheme netloc r,
       (dependencies.verify_api_key_from_body settings current_time r = ([], Ok r)
        ∧ sr_api_key r ∈ api_keys_list settings)
       ∨ ∃ msg code,
           (msg, code) ∈ [(MSG_INVALID_KEY, 40001); (MSG_TIMESTAMP_REQUIRED, 40001);
                          (MSG_TIMESTAMP_EXPIRED, 40003); (MSG_SIGNATURE_FAILED, 40002)]
           ∧ send.send_message_post settings current_time v scheme netloc r
             = ([], HTTPErrorResponse 401 (error_detail (PInt code) (PStr msg)))).
Proof.
  split.
  - intros q.
    destruct (validate_verdicts settings current_time (send.q_api_key q)
                (send.q_timestamp q)
                (if Py.truthy_opt (send.q_signature q)
                 then dependencies.query_payload (send.q_items q) else "")
                (send.q_signature q))
      as [[Hok Hin]|(msg & code & Hpair & Hno & Hcode)].
    + left. split; [|done].
      unfold dependencies.verify_api_key_dependency. by rewrite Hok.
    + right. exists msg, code. split; [done|]. apply get_refused.
      unfold dependencies.verify_api_key_dependency. rewrite Hno.
      cbn [dependencies.reject_or_pass negb]. by rewrite Hcode.
  - intros scheme netloc r.
    destruct (validate_verdicts settings current_time (sr_api_key r)
                (sr_timestamp r)
                (if Py.truthy_opt (sr_signature r)
                 then dependencies.body_payload r else "")
                (sr_signature r))
      as [[Hok Hin]|(msg & code & Hpair & Hno & Hcode)].
    + left. split; [|done].
      unfold dependencies.verify_api_key_from_body. by rewrite Hok.
    + right. exists msg, code. split; [done|]. apply post_refused.
      unfold dependencies.verify_api_key_from_body. rewrite Hno.
      cbn [dependencies.reject_or_pass negb]. by rewrite Hcode.
Qed.

(** ** The payload signed with a GET request *)

Lemma compare_refl s : String.compare s s = Eq.
Proof.
  destruct (String.compare s s) eqn:Hc; [done| |];
    pose proof (String.compare_antisym s s) as Ha; rewrite Hc in Ha; discriminate.
Qed.

Lemma compare_lt_trans a b c :
  String.compare a b = Lt -> String.compare b c = Lt -> String.compare a c = Lt.
Proof.
  intros Hab Hbc.
  apply OrderedTypeEx.String_as_OT.cmp_lt.
  eapply OrderedTypeEx.String_as_OT.lt_trans;
    by apply OrderedTypeEx.String_as_OT.cmp_lt.
Qed.

Lemma leb_trans a b c :
  String.leb a b = true -> String.leb b c = true -> String.leb a c = true.
Proof.
  unfold String.leb.
  destruct (String.compare a b) eqn:Hab; [| |discriminate]; intros _.
  - apply String.compare_eq_iff in Hab as ->. done.
  - destruct (String.compare b c) eqn:Hbc; [| |discriminate]; intros _.
    + apply String.compare_eq_iff in Hbc as <-. by rewrite Hab.
    + by rewrite (compare_lt_trans a b c).
Qed.

#[local] Instance tuple_le_total :
  Total (λ a b, Is_true (dependencies.tuple_leb a b)).
Proof.
  intros [a1 a2] [b1 b2]. unfold dependencies.tuple_leb. cbn [fst snd].
  rewrite (String.compare_antisym b1 a1).
  destruct (String.compare a1 b1); cbn [CompOpp]; [|by left|by right].
  destruct (String.leb_total a2 b2) as [->| ->]; [by left|by right].
Qed.

#[local] Instance tuple_le_trans :
  Transitive (λ a b, Is_true (dependencies.tuple_leb a b)).
Proof.
  intros [a1 a2] [b1 b2] [c1 c2]. unfold dependencies.tuple_leb. cbn [fst snd].
  destruct (String.compare a1 b1) eqn:Hab; [| |done].
  - apply String.compare_eq_iff in Hab as ->.
    destruct (String.compare b1 c1) eqn:Hbc; [| |done]; [|done].
    intros H1%Is_true_true H2%Is_true_true.
    apply Is_true_true. by apply (leb_trans a2 b2 c2).
  - intros _.
    destruct (String.compare b1 c1) eqn:Hbc; [| |done]; intros _.
    + apply String.compare_eq_iff in Hbc as <-. by rewrite Hab.
    + by rewrite (compare_lt_trans a1 b1 c1).
Qed.

#[local] Instance tuple_le_antisym :
  AntiSymm eq (λ a b, Is_true (dependencies.tuple_leb a b)).
Proof.
  intros [a1 a2] [b1 b2]. unfold dependencies.tuple_leb. cbn [fst snd].
  rewrite (String.compare_antisym b1 a1).
  destruct (String.compare a1 b1) eqn:Hab; cbn [CompOpp]; [|done|done].
  apply String.compare_eq_iff in Hab as ->.
  intros H1%Is_true_true H2%Is_true_true.
  by rewrite (String.leb_antisym a2 b2).
Qed.

Lemma sorted_items_unique (l1 l2 : list (string * string)) :
  l1 ≡ₚ l2 ->
  merge_sort (λ a b, Is_true (dependencies.tuple_leb a b)) l1
  = merge_sort (λ a b, Is_true (dependencies.tuple_leb a b)) l2.
Proof.
  intros Hperm.
  apply (Sorted_unique (λ a b, Is_true (dependencies.tuple_leb a b)));
    [apply Sorted_merge_sort, _..|].
  by rewrite !merge_sort_Permutation.
Qed.

Lemma dict_set_keys k v d :
  (dependencies.dict_set k v d).*1 = if bool_decide (k ∈ d.*1) then d.*1 else d.*1 ++ [k].
Proof.
  induction d as [|[k' v'] d IH]; [done|].
  cbn [dependencies.dict_set fmap list_fmap fst].
  destruct (decide (k' = k)) as [->|Hne].
  - rewrite bool_decide_true by done.
    rewrite (bool_decide_true (k ∈ k :: d.*1)) by apply list_elem_of_here. done.
  - rewrite bool_decide_false by done. cbn [fmap list_fmap fst].
    change (list_fmap _ _ fst ?l) with (l.*1). rewrite IH.
    destruct (decide (k ∈ d.*1)) as [Hin|Hnotin].
    + rewrite !bool_decide_true; [done|by apply list_elem_of_further|done].
    + rewrite !bool_decide_false; [done| |done].
      intros [?|?]%elem_of_cons; by subst.
Qed.

Lemma dict_set_fresh k v d :
  k ∉ d.*1 -> dependencies.dict_set k v d = d ++ [(k, v)].
Proof.
  induction d as [|[k' v'] d IH]; [done|].
  cbn [dependencies.dict_set fmap list_fmap fst]. intros Hfresh.
  rewrite bool_decide_false by (intros ->; apply Hfresh, list_elem_of_here).
  rewrite IH; [done|]. intros Hin. by apply Hfresh, list_elem_of_further.
Qed.

Lemma dict_set_twice k v v' d :
  dependencies.dict_set k v' (dependencies.dict_set k v d) = dependencies.dict_set k v' d.
Proof.
  induction d as [|[k' v0] d IH]; cbn [dependencies.dict_set].
  - by rewrite bool_decide_true.
  - destruct (decide (k' = k)) as [->|Hne].
    + rewrite !bool_decide_true by done. cbn [dependencies.dict_set].
      by rewrite bool_decide_true.
    + rewrite !bool_decide_false by done. cbn [dependencies.dict_set].
      by rewrite bool_decide_false, IH.
Qed.

Lemma dict_set_nodup k v d : NoDup d.*1 -> NoDup (dependencies.dict_set k v d).*1.
Proof.
  intros Hd. rewrite dict_set_keys.
  destruct (decide (k ∈ d.*1)) as [Hin|Hnotin].
  - by rewrite bool_decide_true.
  - rewrite bool_decide_false by done. apply NoDup_app. split; [done|].
    split; [|apply NoDup_singleton].
    intros x Hx ->%list_elem_of_singleton. done.
Qed.

Lemma dict_fold_nodup items d :
  NoDup d.*1 ->
  NoDup (fold_left (λ d kv, dependencies.dict_set kv.1 kv.2 d) items d).*1.
Proof.
  revert d. induction items as [|[k v] items IH]; intros d Hd; [done|].
  cbn [fold_left]. apply IH. by apply dict_set_nodup.
Qed.

Lemma dict_fold_fresh items d :
  NoDup (d.*1 ++ items.*1) ->
  fold_left (λ d kv, dependencies.dict_set kv.1 kv.2 d) items d = d ++ items.
Proof.
  revert d. induction items as [|[k v] items IH]; intros d Hd.
  - by rewrite app_nil_r.
  - cbn [fold_left fst snd]. cbn [fmap list_fmap fst] in Hd.
    apply NoDup_app in Hd as (Hd & Hdisjoint & Hitems).
    apply NoDup_cons in Hitems as [Hk Hitems].
    assert (k ∉ d.*1) as Hfresh.
    { intros Hin. apply (Hdisjoint k Hin), list_elem_of_here. }
    rewrite dict_set_fresh by done. rewrite IH; [by rewrite <- app_assoc|].
    rewrite fmap_app. cbn [fmap list_fmap fst]. rewrite <- app_assoc.
    apply NoDup_app. split; [done|]. split.
    + intros x Hx [->|Hin]%elem_of_cons; [done|]. by apply (Hdisjoint x Hx), list_elem_of_further.
    + by apply NoDup_cons.
Qed.

Lemma query_params_dict_nodup items :
  NoDup items.*1 -> dependencies.query_params_dict items = items.
Proof. intros Hitems. by apply (dict_fold_fresh items []). Qed.

Lemma dict_set_filter name k v d :
  filter (λ kv : string * string, kv.1 ≠ name) (dependencies.dict_set k v d)
  = if bool_decide (k = name) then filter (λ kv : string * string, kv.1 ≠ name) d
    else dependencies.dict_set k v (filter (λ kv : string * string, kv.1 ≠ name) d).
Proof.
  induction d as [|[k' v'] d IH]; cbn [dependencies.dict_set].
  - destruct (decide (k = name)) as [->|Hne].
    + rewrite bool_decide_true by done. by rewrite filter_cons_False by (cbn; auto).
    + rewrite bool_decide_false by done. by rewrite filter_cons_True by done.
  - destruct (decide (k' = k)) as [->|Hkey].
    + rewrite (bool_decide_true (k = k)) by done.
      destruct (decide (k = name)) as [->|Hne].
      * rewrite bool_decide_true by done.
        by rewrite !filter_cons_False by (cbn; auto).
      * rewrite bool_decide_false by done.
        rewrite !filter_cons_True by done. cbn [dependencies.dict_set].
        by rewrite bool_decide_true.
    + rewrite (bool_decide_false (k' = k)) by done.
      destruct (decide (k' = name)) as [->|Hname].
      * rewrite !filter_cons_False by (cbn; auto). exact IH.
      * rewrite !filter_cons_True by done. rewrite IH.
        destruct (bool_decide (k = name)); [done|].
        cbn [dependencies.dict_set]. by rewrite bool_decide_false.
Qed.

Lemma dict_fold_filter name items d :
  filter (λ kv : string * string, kv.1 ≠ name)
    (fold_left (λ d kv, dependencies.dict_set kv.1 kv.2 d) items d)
  = fold_left (λ d kv, dependencies.dict_set kv.1 kv.2 d)
      (filter (λ kv : string * string, kv.1 ≠ name) items)
      (filter (λ kv : string * string, kv.1 ≠ name) d).
Proof.
  revert d. induction items as [|[k v] items IH]; intros d; [done|].
  cbn [fold_left fst snd]. rewrite IH, dict_set_filter.
  destruct (decide (k = name)) as [->|Hne].
  - rewrite bool_decide_true by done. by rewrite filter_cons_False by (cbn; auto).
  - rewrite bool_decide_false by done. by rewrite filter_cons_True by done.
Qed.

Lemma query_payload_permutation items items' :
  NoDup items.*1 -> items ≡ₚ items' ->
  dependencies.query_payload items = dependencies.query_payload items'.
Proof.
  intros Hitems Hperm. unfold dependencies.query_payload.
  rewrite !query_params_dict_nodup; [|by rewrite <- Hperm|done].
  f_equal. f_equal. apply sorted_items_unique. by rewrite Hperm.
Qed.

Lemma query_payload_signature_item before signature after :
  dependencies.query_payload (before ++ ("signature", signature) :: after)
  = dependencies.query_payload (before ++ after).
Proof.
  unfold dependencies.query_payload, dependencies.query_params_dict.
  rewrite !dict_fold_filter. rewrite !filter_app.
  by rewrite filter_cons_False by (cbn; auto).
Qed.

Lemma query_payload_of_dict items :
  dependencies.query_payload (dependencies.query_params_dict items)
  = dependencies.query_payload items.
Proof.
  unfold dependencies.query_payload.
  rewrite (query_params_dict_nodup (dependencies.query_params_dict items)); [done|].
  by apply dict_fold_nodup, NoDup_nil.
Qed.

(** X6.  The payload signed with a GET request is that of the dict of the
    query, which holds for each name the last value given to it.  For a
    query that gives no name twice it does not depend on the order of the
    parameters; of a name given twice in a row the second value counts; and
    a [signature] parameter, wherever it stands, is not part of it. *)
Theorem query_payload_canonical :
  (∀ items items',
     NoDup items.*1 -> items ≡ₚ items' ->
     dependencies.query_payload items = dependencies.query_payload items')
  ∧ (∀ before signature after,
       dependencies.query_payload (before ++ ("signature", signature) :: after)
       = dependencies.query_payload (before ++ after))
  ∧ (∀ items,
       NoDup (dependencies.query_params_dict items).*1
       ∧ dependencies.query_payload (dependencies.query_params_dict items)
         = dependencies.query_payload items)
  ∧ (∀ items k v v',
       dependencies.query_payload (items ++ [(k, v); (k, v')])
       = dependencies.query_payload (items ++ [(k, v')])).
Proof.
  split; [exact query_payload_permutation|].
  split; [exact query_payload_signature_item|]. split.
  - intros items. split; [by apply dict_fold_nodup, NoDup_nil|].
    apply query_payload_of_dict.
  - intros items k v v'.
    unfold dependencies.query_payload, dependencies.query_params_dict.
    rewrite !fold_left_app. cbn [fold_left fst snd]. by rewrite dict_set_twice.
Qed.

(** ** Signing a request and sending it *)

Lemma generated_signature_value settings api_key timestamp payload signature :
  generate_signature settings api_key timestamp payload None = Ok signature ->
  signature ≠ ""
  ∧ ∃ secret,
      api_key_secret settings = Some secret ∧ secret ≠ ""
      ∧ signature
        = SHA256.hmac_hexdigest secret (api_key +:+ Py.str_of_int timestamp +:+ payload).
Proof.
  intros Hgen.
  assert (String.length signature = 64%nat) as Hlen.
  { revert Hgen. unfold generate_signature. destruct (negb _); [discriminate|].
    intros [= <-]. unfold SHA256.hmac_hexdigest, SHA256.hmac.
    by rewrite hex_length, digest_length. }
  split; [by intros ->|].
  destruct (api_key_secret settings) as [secret|] eqn:Hcfg.
  - destruct (decide (secret = "")) as [->|Hsecret].
    + by rewrite generate_signature_unconfigured in Hgen by (by right).
    + exists secret. split; [done|]. split; [done|].
      rewrite (generate_signature_configured _ _ _ _ secret) in Hgen by done.
      congruence.
  - by rewrite generate_signature_unconfigured in Hgen by (by left).
Qed.

Lemma validate_generated settings current_time api_key timestamp payload signature :
  api_key ≠ "" -> api_key ∈ api_keys_list settings ->
  Z.abs (current_time - timestamp) <= 300 ->
  generate_signature settings api_key timestamp payload None = Ok signature ->
  Py.truthy signature = true
  ∧ validate_api_key_with_signature settings current_time
      api_key (Some timestamp) payload (Some signature) = Ok (true, MSG_VALID).
Proof.
  intros Hne Hin Hwindow (Hsig & secret & Hcfg & Hsecret & ->)%generated_signature_value.
  apply truthy_nonempty in Hsig. split; [done|].
  unfold validate_api_key_with_signature.
  rewrite verify_api_key_true, Hsig by done. cbn [negb].
  unfold verify_timestamp, TIMESTAMP_VALIDITY_WINDOW.
  destruct (Z.leb_spec (Z.abs (current_time - timestamp)) 300) as [_|Hout]; [|lia].
  cbn [negb]. rewrite (verify_signature_configured _ _ _ _ _ secret) by done.
  by rewrite bool_decide_true.
Qed.

(** X7.  Signing and sending a GET request.  A client that holds a listed
    key signs the payload of its query parameters with [generate_signature]
    and adds the signature as one more parameter, in any position and with
    the parameters in any order, no name being given twice.  Within 300
    seconds of the signed time the key dependency passes the request on,
    and makes no call. *)
Theorem signed_get_passes settings current_time items sent api_key timestamp signature :
  api_key ≠ "" -> api_key ∈ api_keys_list settings ->
  Z.abs (current_time - timestamp) <= 300 ->
  generate_signature settings api_key timestamp
    (dependencies.query_payload items) None = Ok signature ->
  sent ≡ₚ ("signature", signature) :: items ->
  NoDup sent.*1 ->
  dependencies.verify_api_key_dependency settings current_time
    sent api_key (Some timestamp) (Some signature)
  = ([], Ok api_key).
Proof.
  intros Hne Hin Hwindow Hgen Hsent Hnames.
  destruct (validate_generated settings current_time api_key timestamp
              (dependencies.query_payload items) signature) as [Hsig Hok]; [done..|].
  unfold dependencies.verify_api_key_dependency. cbn [Py.truthy_opt].
  rewrite Hsig.
  rewrite (query_payload_permutation sent _ Hnames Hsent).
  change (("signature", signature) :: items)
    with ([] ++ ("signature", signature) :: items).
  rewrite query_payload_signature_item. cbn [app]. by rewrite Hok.
Qed.

(** X8.  Signing and sending a POST request.  When the [signature] field of
    a request with a listed key is what [generate_signature] returns for the
    payload of the request, the body check passes the request on unchanged
    within 300 seconds of the signed time.  The payload is the same for
    requests that differ in [agentid] and [signature] only, so a signature
    stays valid when the agent id is changed. *)
Theorem signed_post_passes settings current_time r timestamp signature :
  sr_api_key r ≠ "" -> sr_api_key r ∈ api_keys_list settings ->
  sr_timestamp r = Some timestamp ->
  Z.abs (current_time - timestamp) <= 300 ->
  generate_signature settings (sr_api_key r) timestamp
    (dependencies.body_payload r) None = Ok signature ->
  sr_signature r = Some signature ->
  dependencies.verify_api_key_from_body settings current_time r = ([], Ok r)
  ∧ ∀ agentid,
      let r' :=
        {| sr_api_key := sr_api_key r; sr_title := sr_title r;
           sr_content := sr_content r; sr_appid := sr_appid r;
           sr_secret := sr_secret r; sr_userid := sr_userid r;
           sr_base_url := sr_base_url r; sr_template_id := sr_template_id r;
           sr_agentid := agentid; sr_channel := sr_channel r;
           sr_timestamp := sr_timestamp r; sr_signature := sr_signature r |} in
      dependencies.verify_api_key_from_body settings current_time r' = ([], Ok r').
Proof.
  intros Hne Hin Hts Hwindow Hgen Hsigned.
  destruct (validate_generated settings current_time (sr_api_key r) timestamp
              (dependencies.body_payload r) signature) as [Hsig Hok]; [done..|].
  split.
  - unfold dependencies.verify_api_key_from_body.
    rewrite Hsigned, Hts. cbn [Py.truthy_opt]. rewrite Hsig. by rewrite Hok.
  - intros agentid r'.
    assert (dependencies.body_payload r' = dependencies.body_payload r) as Hpayload
      by reflexivity.
    unfold dependencies.verify_api_key_from_body. rewrite Hpayload.
    subst r'. cbn [sr_signature sr_timestamp sr_api_key].
    rewrite Hsigned, Hts. cbn [Py.truthy_opt]. rewrite Hsig. by rewrite Hok.
Qed.

(** ** Fetching an access token *)

Lemma wechat_token_is_helper v appid secret :
  WeChatService.get_access_token v appid secret
  = http_client.get_access_token v WeChatService.WECHAT_TOKEN_URL appid secret
      "client_credential".
Proof.
  unfold WeChatService.get_access_token, try_except.
  destruct (http_client.get_access_token _ _ _ _ _) as [calls [token|e]]; [done|].
  cbn. by rewrite app_nil_r.
Qed.

Lemma token_reply_checked (reply : gmap string pyval) (msg : pyval -> pyval -> string) :
  (if dict_has reply "errcode" then
     let errcode := dict_get reply "errcode" (PInt 0) in
     let errmsg := dict_get reply "errmsg" (PStr "Unknown error") in
     if Val.ne_zero errcode
     then raise (ValueError (msg errcode errmsg))
     else ret tt
   else ret tt)
  = (if Val.ne_zero (dict_get reply "errcode" (PInt 0))
     then raise (ValueError (msg (dict_get reply "errcode" (PInt 0))
                               (dict_get reply "errmsg" (PStr "Unknown error"))))
     else (ret tt : M exn unit)).
Proof.
  unfold dict_has, dict_get.
  destruct (reply !! "errcode") as [errcode|] eqn:Hcode.
  - by rewrite bool_decide_true by eauto.
  - rewrite bool_decide_false by (by intros [? [=]]). done.
Qed.

Lemma http_token_fetch v token_url appid secret grant_type :
  let params := [("grant_type", grant_type); ("appid", appid); ("secret", secret)] in
  http_client.get_access_token v token_url appid secret grant_type
  = ([GET token_url params],
     match http_get v token_url params with
     | Ok reply =>
         if Val.ne_zero (dict_get reply "errcode" (PInt 0)) then
           Raise (ValueError ("WeChat API error: errcode="
                              +:+ Val.format (dict_get reply "errcode" (PInt 0))
                              +:+ ", errmsg="
                              +:+ Val.format (dict_get reply "errmsg" (PStr "Unknown error"))))
         else if Val.truthy (dict_get_none reply "access_token") then
           Ok (dict_get_none reply "access_token", dict_get reply "expires_in" (PInt 7200))
         else Raise (ValueError "Access token not found in response")
     | Raise (HTTPStatusError status_code _) =>
         Raise (ValueError ("Failed to get access token: HTTP "
                            +:+ Py.str_of_int status_code))
     | Raise (RequestError m) =>
         Raise (ValueError ("Failed to get access token: " +:+ m))
     | Raise e => Raise e
     end).
Proof.
  intros params.
  unfold http_client.get_access_token, http_client.fetch_json. fold params.
  destruct (http_get v token_url params) as [reply|e].
  - unfold bind at 1.
    rewrite (token_reply_checked _
               (λ errcode errmsg, "WeChat API error: errcode=" +:+ Val.format errcode
                                  +:+ ", errmsg=" +:+ Val.format errmsg)).
    destruct (Val.ne_zero _); [reflexivity|].
    destruct (Val.truthy _); reflexivity.
  - destruct e; reflexivity.
Qed.

Lemma workwechat_token_fetch v corpid corpsecret :
  let params := [("corpid", corpid); ("corpsecret", corpsecret)] in
  WorkWeChatService.get_access_token v corpid corpsecret
  = ([GET WorkWeChatService.WORKWECHAT_TOKEN_URL params],
     match http_get v WorkWeChatService.WORKWECHAT_TOKEN_URL params with
     | Ok reply =>
         if Val.ne_zero (dict_get reply "errcode" (PInt 0)) then
           Raise (ValueError ("企业微信 API 错误: errcode="
                              +:+ Val.format (dict_get reply "errcode" (PInt 0))
                              +:+ ", errmsg="
                              +:+ Val.format (dict_get reply "errmsg" (PStr "Unknown error"))))
         else if Val.truthy (dict_get_none reply "access_token") then
           Ok (dict_get_none reply "access_token", dict_get reply "expires_in" (PInt 7200))
         else Raise (ValueError "Access token not found in response")
     | Raise (ValueError m) => Raise (ValueError m)
     | Raise e => Raise (ValueError ("获取企业微信 Access Token 失败: " +:+ exn_str e))
     end).
Proof.
  intros params.
  unfold WorkWeChatService.get_access_token, http_client.fetch_json. fold params.
  destruct (http_get v WorkWeChatService.WORKWECHAT_TOKEN_URL params) as [reply|e].
  - unfold bind at 1.
    rewrite (token_reply_checked _
               (λ errcode errmsg, "企业微信 API 错误: errcode=" +:+ Val.format errcode
                                  +:+ ", errmsg=" +:+ Val.format errmsg)).
    destruct (Val.ne_zero _); [reflexivity|].
    destruct (Val.truthy _); reflexivity.
  - destruct e; reflexivity.
Qed.



(** ** Sending through an adapter *)

Lemma wechat_post_checked v url body :
  try_except
    (response_data <- http_client.post_json v url body ;;
     _ <- (if dict_has response_data "errcode" then
             let errcode := dict_get response_data "errcode" (PInt 0) in
             let errmsg := dict_get response_data "errmsg" (PStr "Unknown error") in
             if Val.ne_zero errcode
             then raise (ValueError ("微信 API 错误: errcode=" +:+ Val.format errcode
                                     +:+ ", errmsg=" +:+ Val.format errmsg))
             else ret tt
           else ret tt) ;;
     ret response_data)
    (fun e =>
       match e with
       | ValueError _ => raise e
       | _ => raise (ValueError ("发送微信模板消息失败: " +:+ exn_str e))
       end)
  = ([POST url body],
     match http_post v url body with
     | Ok reply =>
         if Val.ne_zero (dict_get reply "errcode" (PInt 0)) then
           Raise (ValueError ("微信 API 错误: errcode="
                              +:+ Val.format (dict_get reply "errcode" (PInt 0))
                              +:+ ", errmsg="
                              +:+ Val.format (dict_get reply "errmsg" (PStr "Unknown error"))))
         else Ok reply
     | Raise (ValueError m) => Raise (ValueError m)
     | Raise e => Raise (ValueError ("发送微信模板消息失败: " +:+ exn_str e))
     end).
Proof.
  unfold http_client.post_json.
  destruct (http_post v url body) as [reply|e].
  - unfold bind at 1.
    rewrite (token_reply_checked _
               (λ errcode errmsg, "微信 API 错误: errcode=" +:+ Val.format errcode
                                  +:+ ", errmsg=" +:+ Val.format errmsg)).
    destruct (Val.ne_zero _); reflexivity.
  - destruct e; reflexivity.
Qed.

Lemma workwechat_post_checked v url body :
  try_except
    (response_data <- http_client.post_json v url body ;;
     _ <- (if dict_has response_data "errcode" then
             let errcode := dict_get response_data "errcode" (PInt 0) in
             let errmsg := dict_get response_data "errmsg" (PStr "Unknown error") in
             if Val.ne_zero errcode
             then raise (ValueError ("企业微信 API 错误: errcode=" +:+ Val.format errcode
                                     +:+ ", errmsg=" +:+ Val.format errmsg))
             else ret tt
           else ret tt) ;;
     ret response_data)
    (fun e =>
       match e with
       | ValueError _ => raise e
       | _ => raise (ValueError ("发送企业微信消息失败: " +:+ exn_str e))
       end)
  = ([POST url body],
     match http_post v url body with
     | Ok reply =>
         if Val.ne_zero (dict_get reply "errcode" (PInt 0)) then
           Raise (ValueError ("企业微信 API 错误: errcode="
                              +:+ Val.format (dict_get reply "errcode" (PInt 0))
                              +:+ ", errmsg="
                              +:+ Val.format (dict_get reply "errmsg" (PStr "Unknown error"))))
         else Ok reply
     | Raise (ValueError m) => Raise (ValueError m)
     | Raise e => Raise (ValueError ("发送企业微信消息失败: " +:+ exn_str e))
     end).
Proof.
  unfold http_client.post_json.
  destruct (http_post v url body) as [reply|e].
  - unfold bind at 1.
    rewrite (token_reply_checked _
               (λ errcode errmsg, "企业微信 API 错误: errcode=" +:+ Val.format errcode
                                  +:+ ", errmsg=" +:+ Val.format errmsg)).
    destruct (Val.ne_zero _); reflexivity.
  - destruct e; reflexivity.
Qed.

(** The calls of a computation whose exceptions are turned into results. *)
Lemma converted_calls (m : M exn (gmap string pyval)) :
  (try_except m
     (fun e =>
        match e with
        | ValueError error_msg =>
            ret (send_result (errcode_of_message error_msg) error_msg PNone)
        | _ => ret (send_result 50000 ("发送消息失败: " +:+ exn_str e) PNone)
        end)).1 = m.1.
Proof.
  destruct m as [calls [result|e]]; [done|].
  destruct e; cbn; by rewrite app_nil_r.
Qed.



Lemma bind_calls {E A B} (m : M E A) (k : A -> M E B) :
  (bind m k).1
  = match m.2 with
    | Ok a => m.1 ++ (k a).1
    | Raise _ => m.1
    end.
Proof. destruct m as [calls [a|e]]; [|done]. cbn. by destruct (k a). Qed.


Lemma wechat_token_cases v appid secret :
  let token_call :=
    GET WeChatService.WECHAT_TOKEN_URL
      [("grant_type", "client_credential"); ("appid", appid); ("secret", secret)] in
  (∃ e, WeChatService.get_access_token v appid secret = ([token_call], Raise e))
  ∨ ∃ token expires_in,
      WeChatService.get_access_token v appid secret
      = ([token_call], Ok (token, expires_in))
      ∧ Val.truthy token = true.
Proof.
  intros token_call. rewrite wechat_token_is_helper, http_token_fetch.
  fold token_call.
  destruct (http_get v _ _) as [reply|e].
  - destruct (Val.ne_zero _); [left; eauto|].
    destruct (Val.truthy _) eqn:Htoken; [right; eauto|left; eauto].
  - left. destruct e; eauto.
Qed.

Lemma workwechat_token_cases v corpid corpsecret :
  let token_call :=
    GET WorkWeChatService.WORKWECHAT_TOKEN_URL
      [("corpid", corpid); ("corpsecret", corpsecret)] in
  (∃ e, WorkWeChatService.get_access_token v corpid corpsecret
        = ([token_call], Raise e))
  ∨ ∃ token expires_in,
      WorkWeChatService.get_access_token v corpid corpsecret
      = ([token_call], Ok (token, expires_in))
      ∧ Val.truthy token = true.
Proof.
  intros token_call. rewrite workwechat_token_fetch. fold token_call.
  destruct (http_get v _ _) as [reply|e].
  - destruct (Val.ne_zero _); [left; eauto|].
    destruct (Val.truthy _) eqn:Htoken; [right; eauto|left; eauto].
  - left. destruct e; eauto.
Qed.


(** ** A message that is delivered *)

Lemma wechat_template_sent settings v access_token userid title content
    base_url template_id tid :
  (template_id = Some tid ∧ tid ≠ "")
  ∨ (Py.truthy_opt template_id = false
     ∧ default_wechat_template_id settings = Some tid ∧ tid ≠ "") ->
  let url :=
    WeChatService.WECHAT_TEMPLATE_SEND_URL +:+ "?access_token="
    +:+ Val.format access_token in
  let body :=
    JObj ([("touser", JStr userid); ("template_id", JStr tid);
           ("data",
            JObj [("title", JObj [("value", JStr title); ("color", JStr "#173177")]);
                  ("content", JObj [("value", JStr content); ("color", JStr "#173177")])])]
          ++ match base_url with
             | Some u => if Py.truthy u then [("url", JStr u)] else []
             | None => []
             end) in
  WeChatService.send_template_message settings v access_token userid title content
    base_url template_id
  = ([POST url body],
     match http_post v url body with
     | Ok reply =>
         if Val.ne_zero (dict_get reply "errcode" (PInt 0)) then
           Raise (ValueError ("微信 API 错误: errcode="
                              +:+ Val.format (dict_get reply "errcode" (PInt 0))
                              +:+ ", errmsg="
                              +:+ Val.format (dict_get reply "errmsg" (PStr "Unknown error"))))
         else Ok reply
     | Raise (ValueError m) => Raise (ValueError m)
     | Raise e => Raise (ValueError ("发送微信模板消息失败: " +:+ exn_str e))
     end).
Proof.
  intros Htid url body.
  assert ((if negb (Py.truthy_opt template_id)
           then default_wechat_template_id settings else template_id) = Some tid
          ∧ Py.truthy tid = true) as [Hresolved Htrue].
  { destruct Htid as [[-> Hne]|(Hnone & Hdefault & Hne)];
      apply truthy_nonempty in Hne.
    - cbn [Py.truthy_opt]. by rewrite Hne.
    - by rewrite Hnone. }
  unfold WeChatService.send_template_message.
  rewrite Hresolved, Htrue. cbn [negb].
  rewrite wechat_post_checked. fold url.
  assert (∀ request_body : list (string * json),
            match base_url with
            | Some u => if Py.truthy u then request_body ++ [("url", JStr u)]
                        else request_body
            | None => request_body
            end
            = request_body ++ match base_url with
                              | Some u => if Py.truthy u then [("url", JStr u)] else []
                              | None => []
                              end) as ->; [|done].
  intros request_body.
  destruct base_url as [u|]; [destruct (Py.truthy u)|]; by rewrite ?app_nil_r.
Qed.

(** X12.  A template message that is delivered.  With a template id, from
    the request or else from the configuration, a token from the vendor and
    a reply to the send call without a non-zero [errcode], [send_message] of
    the WeChat adapter makes the two calls and returns code 0, the text
    [ok] and the [msgid] of the reply.  The message goes to [userid] with
    the title and the content as template data, and links to [base_url]
    when one is given. *)
Theorem wechat_message_delivered settings v appid secret userid title content
    base_url template_id tid token expires_in reply :
  (template_id = Some tid ∧ tid ≠ "")
  ∨ (Py.truthy_opt template_id = false
     ∧ default_wechat_template_id settings = Some tid ∧ tid ≠ "") ->
  let url :=
    WeChatService.WECHAT_TEMPLATE_SEND_URL +:+ "?access_token=" +:+ Val.format token in
  let body :=
    JObj ([("touser", JStr userid); ("template_id", JStr tid);
           ("data",
            JObj [("title", JObj [("value", JStr title); ("color", JStr "#173177")]);
                  ("content", JObj [("value", JStr content); ("color", JStr "#173177")])])]
          ++ match base_url with
             | Some u => if Py.truthy u then [("url", JStr u)] else []
             | None => []
             end) in
  (WeChatService.get_access_token v appid secret).2 = Ok (token, expires_in) ->
  http_post v url body = Ok reply ->
  Val.ne_zero (dict_get reply "errcode" (PInt 0)) = false ->
  WeChatService.send_message settings v appid secret userid title content
    base_url template_id
  = ([GET WeChatService.WECHAT_TOKEN_URL
        [("grant_type", "client_credential"); ("appid", appid); ("secret", secret)];
      POST url body],
     Ok (send_result 0 "ok" (dict_get_none reply "msgid"))).
Proof.
  intros Htid url body Htoken Hpost Hcode.
  unfold WeChatService.send_message, WeChatService.send_message_try.
  destruct (wechat_token_cases v appid secret)
    as [[e He]|(token' & expires_in' & He & _)]; rewrite He in Htoken |- *;
    [discriminate|].
  injection Htoken as -> ->.
  unfold bind at 1. cbn [fst].
  rewrite (wechat_template_sent settings v token userid title content base_url
             template_id tid Htid).
  fold url body. rewrite Hpost, Hcode. reflexivity.
Qed.

Lemma workwechat_text_sent v access_token userid title content agentid_int :
  py_int (Py.str_of_int agentid_int) = Some agentid_int ->
  let url :=
    WorkWeChatService.WORKWECHAT_MESSAGE_SEND_URL +:+ "?access_token="
    +:+ Val.format access_token in
  let body :=
    JObj [("touser", JStr userid); ("msgtype", JStr "text");
          ("agentid", JInt agentid_int);
          ("text", JObj [("content",
                          JStr (title +:+ String "010" (String "010" content)))]);
          ("safe", JInt 0)] in
  WorkWeChatService._send_text_message v access_token userid
    (Py.str_of_int agentid_int) title content
  = ([POST url body],
     match http_post v url body with
     | Ok reply =>
         if Val.ne_zero (dict_get reply "errcode" (PInt 0)) then
           Raise (ValueError ("企业微信 API 错误: errcode="
                              +:+ Val.format (dict_get reply "errcode" (PInt 0))
                              +:+ ", errmsg="
                              +:+ Val.format (dict_get reply "errmsg" (PStr "Unknown error"))))
         else Ok reply
     | Raise (ValueError m) => Raise (ValueError m)
     | Raise e => Raise (ValueError ("发送企业微信消息失败: " +:+ exn_str e))
     end).
Proof.
  intros Hint url body. unfold WorkWeChatService._send_text_message.
  rewrite Hint. by rewrite workwechat_post_checked.
Qed.

(** X13.  A text message that is delivered.  With an agent id, from the
    request or else from the configuration, that [int] reads as [n], a token
    from the vendor and a reply to the send call without a non-zero
    [errcode], [send_message] of the WeChat Work adapter makes the two calls
    and returns code 0, the text [ok] and the [msgid] of the reply.  The
    message is a text message to [userid] for agent [n]: title, an empty
    line, content.  The [base_url] plays no part. *)
Theorem workwechat_message_delivered settings v appid secret userid title content
    base_url agentid a n token expires_in reply :
  (agentid = Some a ∧ a ≠ "")
  ∨ (Py.truthy_opt agentid = false
     ∧ default_workwechat_agentid settings = Some a ∧ a ≠ "") ->
  py_int a = Some n ->
  py_int (Py.str_of_int n) = Some n ->
  let url :=
    WorkWeChatService.WORKWECHAT_MESSAGE_SEND_URL +:+ "?access_token="
    +:+ Val.format token in
  let body :=
    JObj [("touser", JStr userid); ("msgtype", JStr "text");
          ("agentid", JInt n);
          ("text", JObj [("content",
                          JStr (title +:+ String "010" (String "010" content)))]);
          ("safe", JInt 0)] in
  (WorkWeChatService.get_access_token v appid secret).2 = Ok (token, expires_in) ->
  http_post v url body = Ok reply ->
  Val.ne_zero (dict_get reply "errcode" (PInt 0)) = false ->
  WorkWeChatService.send_message settings v appid secret userid title content
    base_url agentid
  = ([GET WorkWeChatService.WORKWECHAT_TOKEN_URL
        [("corpid", appid); ("corpsecret", secret)];
      POST url body],
     Ok (send_result 0 "ok" (dict_get_none reply "msgid"))).
Proof.
  intros Hagent Hint Hround url body Htoken Hpost Hcode.
  unfold WorkWeChatService.send_message.
  rewrite (resolve_agentid_present settings agentid a Hagent), Hint.
  unfold WorkWeChatService.send_message_try.
  destruct (workwechat_token_cases v appid secret)
    as [[e He]|(token' & expires_in' & He & _)]; rewrite He in Htoken |- *;
    [discriminate|].
  injection Htoken as -> ->.
  unfold bind at 1. cbn [fst].
  rewrite (workwechat_text_sent v token userid title content n Hround).
  fold url body. rewrite Hpost, Hcode. reflexivity.
Qed.

(** ** What the routes make of an adapter's result *)

Lemma converted_result (m : M exn (gmap string pyval)) :
  (∀ calls result, m = (calls, Ok result) -> ∃ msgid, result = send_result 0 "ok" msgid) ->
  ∃ errcode errmsg msgid,
    (try_except m
       (fun e =>
          match e with
          | ValueError error_msg =>
              ret (send_result (errcode_of_message error_msg) error_msg PNone)
          | _ => ret (send_result 50000 ("发送消息失败: " +:+ exn_str e) PNone)
          end)).2 = Ok (send_result errcode errmsg msgid).
Proof.
  destruct m as [calls [result|e]]; intros Hok.
  - destruct (Hok calls result eq_refl) as [msgid ->]. cbn. eauto.
  - destruct e; cbn; eauto.
Qed.

Lemma wechat_result_shape settings v appid secret userid title content
    base_url template_id :
  ∃ errcode errmsg msgid,
    (WeChatService.send_message settings v appid secret userid title content
       base_url template_id).2 = Ok (send_result errcode errmsg msgid).
Proof.
  apply converted_result. intros calls result. apply wechat_try_ok.
Qed.

Lemma workwechat_result_shape settings v appid secret userid title content
    base_url agentid :
  ∃ errcode errmsg msgid,
    (WorkWeChatService.send_message settings v appid secret userid title content
       base_url agentid).2 = Ok (send_result errcode errmsg msgid).
Proof.
  unfold WorkWeChatService.send_message.
  destruct (WorkWeChatService.resolve_agentid settings agentid) as [a|];
    [|cbn; eauto].
  destruct (py_int a) as [agentid_int|]; [|cbn; eauto].
  apply converted_result. intros calls result. apply workwechat_try_ok.
Qed.

Lemma handler_reports_failure settings v scheme netloc r errcode errmsg msgid :
  let base_url :=
    if negb (Py.truthy_opt (sr_base_url r))
    then Some (send.generate_detail_url scheme netloc (sr_title r) (sr_content r))
    else sr_base_url r in
  let sent :=
    if bool_decide (sr_channel r = "workwechat") then
      WorkWeChatService.send_message settings v (sr_appid r) (sr_secret r)
        (sr_userid r) (sr_title r) (sr_content r) base_url (sr_agentid r)
    else
      WeChatService.send_message settings v (sr_appid r) (sr_secret r)
        (sr_userid r) (sr_title r) (sr_content r) base_url (sr_template_id r) in
  sent.2 = Ok (send_result errcode errmsg msgid) -> errcode ≠ 0 ->
  send.send_message_handler settings v scheme netloc r
  = (sent.1,
     Raise (HTTPException 400 (error_detail (PInt errcode) (PStr errmsg)))).
Proof.
  intros base_url sent Hsent Hcode.
  unfold send.send_message_handler. fold base_url. fold sent.
  destruct sent as [calls result]. cbn [fst snd] in Hsent |- *. subst result.
  cbn [lift_exn bind].
  unfold dict_get. rewrite send_result_errcode, send_result_errmsg.
  cbn [default from_option id Val.ne_zero].
  destruct (Z.eqb_spec errcode 0) as [?|_]; [done|].
  cbn. by rewrite !app_nil_r.
Qed.


(** X14.  What the routes answer when an adapter reports a failure.  The
    adapter the handler chooses by the channel always returns a result of
    the three fields.  When the code of that result is not 0, the handler
    raises the 400 error with the code and the message of the result, and a
    request that has passed the key check is answered with it, after the
    calls the adapter made and no others. *)
Theorem adapter_failure_answered_400 settings current_time v scheme netloc r :
  let base_url :=
    if negb (Py.truthy_opt (sr_base_url r))
    then Some (send.generate_detail_url scheme netloc (sr_title r) (sr_content r))
    else sr_base_url r in
  let sent :=
    if bool_decide (sr_channel r = "workwechat") then
      WorkWeChatService.send_message settings v (sr_appid r) (sr_secret r)
        (sr_userid r) (sr_title r) (sr_content r) base_url (sr_agentid r)
    else
      WeChatService.send_message settings v (sr_appid r) (sr_secret r)
        (sr_userid r) (sr_title r) (sr_content r) base_url (sr_template_id r) in
  (∃ errcode errmsg msgid, sent.2 = Ok (send_result errcode errmsg msgid))
  ∧ (∀ errcode errmsg msgid,
       sent.2 = Ok (send_result errcode errmsg msgid) -> errcode ≠ 0 ->
       send.send_message_handler settings v scheme netloc r
       = (sent.1, Raise (HTTPException 400 (error_detail (PInt errcode) (PStr errmsg))))
       ∧ (dependencies.verify_api_key_from_body settings current_time r = ([], Ok r) ->
          send.send_message_post settings current_time v scheme netloc r
          = (sent.1, HTTPErrorResponse 400 (error_detail (PInt errcode) (PStr errmsg))))
       ∧ (∀ q,
            dependencies.verify_api_key_dependency settings current_time
              (send.q_items q) (send.q_api_key q) (send.q_timestamp q)
              (send.q_signature q) = ([], Ok (send.q_api_key q)) ->
            send.parse_send_request_from_query q (send.q_api_key q) = ([], Ok r) ->
            send.q_scheme q = scheme -> send.q_netloc q = netloc ->
            send.send_message_get settings current_time v q
            = (sent.1,
               HTTPErrorResponse 400 (error_detail (PInt errcode) (PStr errmsg))))).
Proof.
  intros base_url sent. split.
  - subst sent. destruct (bool_decide _);
      [apply workwechat_result_shape|apply wechat_result_shape].
  - intros errcode errmsg msgid Hsent Hcode.
    pose proof (handler_reports_failure settings v scheme netloc r
                  errcode errmsg msgid Hsent Hcode) as Hhandler.
    fold base_url in Hhandler. fold sent in Hhandler.
    split; [exact Hhandler|]. split.
    + intros Hkey. unfold send.send_message_post.
      rewrite Hkey. cbn [bind]. rewrite Hhandler. reflexivity.
    + intros q Hkey Hparse <- <-. unfold send.send_message_get.
      rewrite Hkey. cbn [bind]. rewrite Hparse. cbn [bind app].
      rewrite Hhandler. reflexivity.
Qed.

(** ** The link of a template message *)

Lemma respond_calls m : (respond m).1 = m.1.
Proof. destruct m as [calls [content|[status_code detail|e]]]; reflexivity. Qed.

Lemma handler_calls settings v scheme netloc r :
  let base_url :=
    if negb (Py.truthy_opt (sr_base_url r))
    then Some (send.generate_detail_url scheme netloc (sr_title r) (sr_content r))
    else sr_base_url r in
  (send.send_message_handler settings v scheme netloc r).1
  = (if bool_decide (sr_channel r = "workwechat") then
       WorkWeChatService.send_message settings v (sr_appid r) (sr_secret r)
         (sr_userid r) (sr_title r) (sr_content r) base_url (sr_agentid r)
     else
       WeChatService.send_message settings v (sr_appid r) (sr_secret r)
         (sr_userid r) (sr_title r) (sr_content r) base_url (sr_template_id r)).1.
Proof.
  intros base_url. unfold send.send_message_handler. fold base_url.
  destruct (if bool_decide (sr_channel r = "workwechat") then _ else _)
    as [calls [result|e]]; cbn [lift_exn bind fst].
  - destruct (Val.ne_zero _); [cbn; by rewrite !app_nil_r|].
    destruct (SendResponse _ _ _) as [content|e]; cbn; by rewrite !app_nil_r.
  - cbn. by rewrite app_nil_r.
Qed.

Lemma detail_url_nonempty scheme netloc title content :
  Py.truthy (send.generate_detail_url scheme netloc title content) = true.
Proof.
  apply truthy_nonempty. unfold send.generate_detail_url.
  destruct scheme; [|by rewrite append_cons].
  discriminate.
Qed.

Lemma wechat_send_calls settings v appid secret userid title content
    base_url template_id tid token expires_in :
  (template_id = Some tid ∧ tid ≠ "")
  ∨ (Py.truthy_opt template_id = false
     ∧ default_wechat_template_id settings = Some tid ∧ tid ≠ "") ->
  (WeChatService.get_access_token v appid secret).2 = Ok (token, expires_in) ->
  (WeChatService.send_message settings v appid secret userid title content
     base_url template_id).1
  = [GET WeChatService.WECHAT_TOKEN_URL
       [("grant_type", "client_credential"); ("appid", appid); ("secret", secret)];
     POST (WeChatService.WECHAT_TEMPLATE_SEND_URL +:+ "?access_token="
           +:+ Val.format token)
       (JObj ([("touser", JStr userid); ("template_id", JStr tid);
               ("data",
                JObj [("title", JObj [("value", JStr title); ("color", JStr "#173177")]);
                      ("content",
                       JObj [("value", JStr content); ("color", JStr "#173177")])])]
              ++ match base_url with
                 | Some u => if Py.truthy u then [("url", JStr u)] else []
                 | None => []
                 end))].
Proof.
  intros Htid Htoken.
  unfold WeChatService.send_message. rewrite converted_calls.
  unfold WeChatService.send_message_try. rewrite bind_calls, Htoken.
  destruct (wechat_token_cases v appid secret)
    as [[e He]|(token' & expires_in' & He & _)]; rewrite He in Htoken |- *;
    [discriminate|].
  injection Htoken as -> ->. cbn [fst].
  rewrite bind_calls.
  rewrite (wechat_template_sent settings v token userid title content base_url
             template_id tid Htid).
  cbn [fst snd]. by destruct (match http_post v _ _ with Ok _ => _ | Raise _ => _ end).
Qed.

(** X15.  The link of a template message.  A request for the WeChat
    channel with a template id, from the request or else from the
    configuration, for which the vendor issues a token, has the handler
    make the token call and the send call, and no other.  The message
    sent always carries a link: the [base_url] of the request when it has
    one, and otherwise the detail page of the service, with the title and
    the content of the message in its query. *)
Theorem template_message_link settings current_time v scheme netloc r tid
    token expires_in :
  sr_channel r ≠ "workwechat" ->
  (sr_template_id r = Some tid ∧ tid ≠ "")
  ∨ (Py.truthy_opt (sr_template_id r) = false
     ∧ default_wechat_template_id settings = Some tid ∧ tid ≠ "") ->
  (WeChatService.get_access_token v (sr_appid r) (sr_secret r)).2
  = Ok (token, expires_in) ->
  let link :=
    match sr_base_url r with
    | Some u =>
        if Py.truthy u then u
        else send.generate_detail_url scheme netloc (sr_title r) (sr_content r)
    | None => send.generate_detail_url scheme netloc (sr_title r) (sr_content r)
    end in
  let calls :=
    [GET WeChatService.WECHAT_TOKEN_URL
       [("grant_type", "client_credential"); ("appid", sr_appid r);
        ("secret", sr_secret r)];
     POST (WeChatService.WECHAT_TEMPLATE_SEND_URL +:+ "?access_token="
           +:+ Val.format token)
       (JObj [("touser", JStr (sr_userid r)); ("template_id", JStr tid);
              ("data",
               JObj [("title",
                      JObj [("value", JStr (sr_title r)); ("color", JStr "#173177")]);
                     ("content",
                      JObj [("value", JStr (sr_content r)); ("color", JStr "#173177")])]);
              ("url", JStr link)])] in
  (send.send_message_handler settings v scheme netloc r).1 = calls
  ∧ (dependencies.verify_api_key_from_body settings current_time r = ([], Ok r) ->
     (send.send_message_post settings current_time v scheme netloc r).1 = calls)
  ∧ (∀ q,
       dependencies.verify_api_key_dependency settings current_time
         (send.q_items q) (send.q_api_key q) (send.q_timestamp q)
         (send.q_signature q) = ([], Ok (send.q_api_key q)) ->
       send.parse_send_request_from_query q (send.q_api_key q) = ([], Ok r) ->
       send.q_scheme q = scheme -> send.q_netloc q = netloc ->
       (send.send_message_get settings current_time v q).1 = calls).
Proof.
  intros Hchannel Htid Htoken link calls.
  assert ((send.send_message_handler settings v scheme netloc r).1 = calls)
    as Hhandler.
  { rewrite handler_calls, bool_decide_false by done.
    rewrite (wechat_send_calls _ _ _ _ _ _ _ _ _ tid token expires_in Htid Htoken).
    subst calls link. do 4 f_equal.
    destruct (sr_base_url r) as [u|]; cbn [Py.truthy_opt].
    - destruct (Py.truthy u) eqn:Hu; cbn [negb]; [by rewrite Hu|].
      by rewrite detail_url_nonempty.
    - cbn [negb]. by rewrite detail_url_nonempty. }
  split; [exact Hhandler|]. split.
  - intros Hkey. unfold send.send_message_post.
    rewrite respond_calls, Hkey, bind_calls. cbn [fst snd app]. exact Hhandler.
  - intros q Hkey Hparse <- <-. unfold send.send_message_get.
    rewrite respond_calls, Hkey, bind_calls. cbn [fst snd app].
    rewrite Hparse, bind_calls. cbn [fst snd app]. exact Hhandler.
Qed.

(** ** The generated link *)

Lemma quote_plus_head c s :
  (url_unreserved c = true ∧ send.quote_plus (String c s) = String c (send.quote_plus s))
  ∨ (c = " "%char ∧ send.quote_plus (String c s) = String "+" (send.quote_plus s))
  ∨ (url_unreserved c = false
     ∧ send.quote_plus (String c s)
       = String "%" (String (send.hex_upper (nat_of_ascii c / 16))
                       (String (send.hex_upper (nat_of_ascii c mod 16))
                          (send.quote_plus s)))).
Proof.
  cbn [send.quote_plus]. cbv zeta. fold (url_unreserved c).
  destruct (url_unreserved c) eqn:Hsafe; [by left|right].
  destruct (Nat.eqb_spec (nat_of_ascii c) 32) as [Hspace|_]; [left|by right].
  split; [|done]. by rewrite <- (ascii_nat_embedding c), Hspace.
Qed.

Lemma hex_upper_inj a b :
  (a < 16)%nat -> (b < 16)%nat -> send.hex_upper a = send.hex_upper b -> a = b.
Proof.
  intros Ha Hb Heq. apply (f_equal nat_of_ascii) in Heq.
  unfold send.hex_upper in Heq.
  destruct (Nat.ltb_spec a 10), (Nat.ltb_spec b 10);
    rewrite !nat_ascii_embedding in Heq by lia; lia.
Qed.

Lemma hex_upper_digit a :
  (a < 16)%nat -> url_unreserved (send.hex_upper a) = true.
Proof.
  intros Ha.
  do 16 (destruct a as [|a]; [reflexivity|]). lia.
Qed.

Lemma quote_plus_amp_inj a b x y :
  send.quote_plus a +:+ String "&" x = send.quote_plus b +:+ String "&" y ->
  a = b ∧ x = y.
Proof.
  revert b. induction a as [|c1 a IH]; intros [|c2 b].
  - intros [= ->]. done.
  - destruct (quote_plus_head c2 b) as [[Hsafe ->]|[[-> ->]|[Hsafe ->]]];
      cbn [send.quote_plus]; rewrite ?append_cons; intros [= <-]; discriminate.
  - destruct (quote_plus_head c1 a) as [[Hsafe ->]|[[-> ->]|[Hsafe ->]]];
      cbn [send.quote_plus]; rewrite ?append_cons; intros [= ->]; discriminate.
  - destruct (quote_plus_head c1 a) as [[Hsafe1 ->]|[[-> ->]|[Hsafe1 ->]]];
      destruct (quote_plus_head c2 b) as [[Hsafe2 ->]|[[-> ->]|[Hsafe2 ->]]];
      rewrite !append_cons.
    + intros [= -> Hrest]. by destruct (IH _ Hrest) as [-> ->].
    + intros [= -> Hrest]. discriminate.
    + intros [= -> Hrest]. discriminate.
    + intros [= <- Hrest]. discriminate.
    + intros [= Hrest]. by destruct (IH _ Hrest) as [-> ->].
    + intros [=].
    + intros [= <- Hrest]. discriminate.
    + intros [=].
    + pose proof (nat_ascii_bounded c1). pose proof (nat_ascii_bounded c2).
      pose proof (Nat.div_mod_eq (nat_of_ascii c1) 16) as Hc1.
      pose proof (Nat.div_mod_eq (nat_of_ascii c2) 16) as Hc2.
      pose proof (Nat.mod_upper_bound (nat_of_ascii c1) 16).
      pose proof (Nat.mod_upper_bound (nat_of_ascii c2) 16).
      remember (nat_of_ascii c1 / 16)%nat as q1. remember (nat_of_ascii c1 mod 16)%nat as r1.
      remember (nat_of_ascii c2 / 16)%nat as q2. remember (nat_of_ascii c2 mod 16)%nat as r2.
      intros [= Hhigh Hlow Hrest].
      apply hex_upper_inj in Hhigh; [|lia..].
      apply hex_upper_inj in Hlow; [|lia..].
      assert (nat_of_ascii c1 = nat_of_ascii c2) as Hcode by lia.
      apply (f_equal ascii_of_nat) in Hcode. rewrite !ascii_nat_embedding in Hcode.
      subst c2. by destruct (IH _ Hrest) as [-> ->].
Qed.

Lemma append_inv_head s a b : s +:+ a = s +:+ b -> a = b.
Proof.
  induction s as [|c s IH]; [done|]. rewrite !append_cons. intros [= H]. auto.
Qed.

Lemma quote_plus_inj a b : send.quote_plus a = send.quote_plus b -> a = b.
Proof.
  intros Heq. apply (quote_plus_amp_inj a b "" ""). by rewrite Heq.
Qed.

Lemma quote_plus_chars s c :
  c ∈ list_ascii_of_string (send.quote_plus s) ->
  url_unreserved c = true ∨ c = "+"%char ∨ c = "%"%char.
Proof.
  induction s as [|c0 s IH]; [by intros ?%elem_of_nil|].
  pose proof (nat_ascii_bounded c0).
  destruct (quote_plus_head c0 s) as [[Hsafe ->]|[[-> ->]|[Hsafe ->]]];
    cbn [list_ascii_of_string]; rewrite ?elem_of_cons.
  - intros [->|Hin]; auto.
  - intros [->|Hin]; auto.
  - intros [->|[->|[->|Hin]]]; auto; left; apply hex_upper_digit;
      [apply Nat.Div0.div_lt_upper_bound|apply Nat.mod_upper_bound]; lia.
Qed.

(** X16.  The link to the detail page determines the message: for a given
    scheme and host, two generated links are equal only when the titles are
    equal and the contents are equal.  What stands for a title or a content
    in the link is made of letters, digits and the characters [_.-~+%]
    only, so neither can add a parameter to the query or end it. *)
Theorem detail_url_determines_message scheme netloc :
  (∀ title content title' content',
     send.generate_detail_url scheme netloc title content
     = send.generate_detail_url scheme netloc title' content' ->
     title = title' ∧ content = content')
  ∧ (∀ text c,
       c ∈ list_ascii_of_string (send.quote_plus text) ->
       url_unreserved c = true ∨ c = "+"%char ∨ c = "%"%char).
Proof.
  split; [|exact quote_plus_chars].
  intros title content title' content'. unfold send.generate_detail_url.
  intros Heq.
  repeat (apply append_inv_head in Heq).
  change ("&content=" +:+ ?x) with (String "&" ("content=" +:+ x)) in Heq.
  apply quote_plus_amp_inj in Heq as [-> Heq]. split; [done|].
  apply append_inv_head in Heq. by apply quote_plus_inj.
Qed.

(** ** A query that pydantic refuses *)

(** X17.  The query parameters of the GET route have no bounds of their
    own, so a request that has passed the key check with a known channel
    can still be refused when its [SendRequest] is built: with a title that
    is empty or longer than 200 characters, a content that is empty or
    longer than 5000, an empty [appid], [secret] or [userid], or a
    [base_url] longer than 500.  Such a request is answered 500 with code
    50000, and nothing is sent to a vendor. *)
Theorem get_out_of_bounds_answered_500 settings current_time v q :
  dependencies.verify_api_key_dependency settings current_time
    (send.q_items q) (send.q_api_key q) (send.q_timestamp q) (send.q_signature q)
  = ([], Ok (send.q_api_key q)) ->
  send.q_channel q ∈ ["wechat"; "workwechat"] ->
  (Py.len (send.q_title q) < 1 ∨ 200 < Py.len (send.q_title q)
   ∨ Py.len (send.q_content q) < 1 ∨ 5000 < Py.len (send.q_content q)
   ∨ Py.len (send.q_appid q) < 1 ∨ Py.len (send.q_secret q) < 1
   ∨ Py.len (send.q_userid q) < 1
   ∨ ∃ u, send.q_base_url q = Some u ∧ 500 < Py.len u)%nat ->
  send.send_message_get settings current_time v q
  = ([], JSONResponse 500 (error_detail (PInt 50000) (PStr "服务器内部错误"))).
Proof.
  intros Hkey Hchannel Hbounds.
  unfold send.send_message_get. rewrite Hkey. cbn [bind].
  unfold send.parse_send_request_from_query.
  rewrite bool_decide_true by done. cbn [negb].
  unfold SendRequest_in_bounds.
  cbn [sr_title sr_content sr_appid sr_secret sr_userid sr_base_url].
  assert (((1 <=? Py.len (send.q_title q))%nat && (Py.len (send.q_title q) <=? 200)%nat
           && (1 <=? Py.len (send.q_content q))%nat
           && (Py.len (send.q_content q) <=? 5000)%nat
           && (1 <=? Py.len (send.q_appid q))%nat
           && (1 <=? Py.len (send.q_secret q))%nat
           && (1 <=? Py.len (send.q_userid q))%nat
           && match send.q_base_url q with
              | Some u => (Py.len u <=? 500)%nat
              | None => true
              end) = false) as ->; [|reflexivity].
  apply not_true_is_false. intros Hall.
  repeat (apply andb_prop in Hall as [Hall ?]).
  repeat match goal with
         | H : (_ <=? _)%nat = true |- _ => apply Nat.leb_le in H
         end.
  destruct Hbounds as [?|[?|[?|[?|[?|[?|[?|(u & Hu & ?)]]]]]]]; try lia.
  rewrite Hu in *.
  match goal with
  | H : (_ <=? _)%nat = true |- _ => apply Nat.leb_le in H
  end. lia.
Qed.

End properties.

(** ** The code at sample inputs *)

#[local] Existing Instance Samples.ascii_int.
#[local] Existing Instance Samples.validation_texts.

(** C4.  The request of the specification's scenario (valid key, a
    signature, no timestamp) is refused before any outbound call with
    status 401 and a message about the timestamp, but the code it carries
    is 40001, the invalid-key code, not 40003. *)
Theorem missing_timestamp_yields_invalid_key_code :
  let q := Samples.query "test_api_key_12345" "wechat" None (Some "test_signature") in
  send.send_message_get Samples.settings 1700000000 Samples.vendor_ok q
  = ([], HTTPErrorResponse 401
           (error_detail (PInt ERRCODE_INVALID_API_KEY) (PStr MSG_TIMESTAMP_REQUIRED)))
  ∧ Py.contains "时间戳" MSG_TIMESTAMP_REQUIRED = true
  ∧ ERRCODE_INVALID_API_KEY ≠ ERRCODE_TIMESTAMP_EXPIRED.
Proof.
  split; [|split; [reflexivity|discriminate]].
  apply (missing_timestamp_response _ _ _ _ "test_signature"); try done.
  by apply (bool_decide_unpack _).
Qed.

(** C7, as stated, fails: with an unknown channel and a key that is not in
    the credential set the answer is 401 with code 40001. *)
Lemma invalid_channel_with_invalid_key :
  let q := Samples.query "invalid_key" "bogus" None None in
  send.send_message_get Samples.settings 1700000000 Samples.vendor_ok q
  = ([], HTTPErrorResponse 401 (error_detail (PInt 40001) (PStr MSG_INVALID_KEY)))
  ∧ ¬ Stated.invalid_channel_is_400 Samples.settings 1700000000 Samples.vendor_ok q.
Proof.
  assert (send.send_message_get Samples.settings 1700000000 Samples.vendor_ok
            (Samples.query "invalid_key" "bogus" None None)
          = ([], HTTPErrorResponse 401
                   (error_detail (PInt 40001) (PStr MSG_INVALID_KEY)))) as Hrun.
  { apply get_invalid_key. right. by apply (bool_decide_unpack _). }
  split; [exact Hrun|].
  intros Hclaim. destruct Hclaim as (detail & Hresp & _).
  - by apply (bool_decide_unpack _).
  - rewrite Hrun in Hresp. discriminate.
Qed.


(** C1, as stated, fails on two counts.  A [ValueError] whose first
    [errcode=] is followed by text that is not an integer gives 50000 even
    when a later [errcode=45009] ends the message; and an exception that is
    not a [ValueError] gives 50000 whatever its message holds. *)
Lemma errcode_mention_not_extracted :
  let run_try v :=
    WeChatService.send_message_try Samples.settings v
      "test_appid" "test_secret" "test_userid" "title" "content" None (Some "template") in
  let run v :=
    WeChatService.send_message Samples.settings v
      "test_appid" "test_secret" "test_userid" "title" "content" None (Some "template") in
  ((run_try Samples.vendor_textual_code).2
   = Raise (ValueError "微信 API 错误: errcode=E1, errmsg=quota, see errcode=45009")
   ∧ (run Samples.vendor_textual_code).2
     = Ok (send_result 50000
             "微信 API 错误: errcode=E1, errmsg=quota, see errcode=45009" PNone)
   ∧ ¬ Stated.errcode_is_any_mention
         (run_try Samples.vendor_textual_code) (run Samples.vendor_textual_code))
  ∧ ((run_try Samples.vendor_client_failure).2
     = Raise (OtherError "errcode=40001, client failure")
     ∧ (run Samples.vendor_client_failure).2
       = Ok (send_result 50000 "发送消息失败: errcode=40001, client failure" PNone)
     ∧ ¬ Stated.errcode_is_any_mention
           (run_try Samples.vendor_client_failure) (run Samples.vendor_client_failure)).
Proof.
  intros run_try run.
  assert ((run_try Samples.vendor_textual_code).2
          = Raise (ValueError "微信 API 错误: errcode=E1, errmsg=quota, see errcode=45009"))
    as Htry1 by (vm_compute; reflexivity).
  assert ((run Samples.vendor_textual_code).2
          = Ok (send_result 50000
                  "微信 API 错误: errcode=E1, errmsg=quota, see errcode=45009" PNone))
    as Hrun1 by (vm_compute; reflexivity).
  assert ((run_try Samples.vendor_client_failure).2
          = Raise (OtherError "errcode=40001, client failure"))
    as Htry2 by (vm_compute; reflexivity).
  assert ((run Samples.vendor_client_failure).2
          = Ok (send_result 50000 "发送消息失败: errcode=40001, client failure" PNone))
    as Hrun2 by (vm_compute; reflexivity).
  split; (split; [assumption|split; [assumption|]]); intros Hclaim.
  - specialize (Hclaim _ _ Htry1 Hrun1 45009). rewrite send_result_errcode in Hclaim.
    enough (Some (PInt 50000) = Some (PInt 45009)) by discriminate.
    apply Hclaim.
    exists "微信 API 错误: errcode=E1, errmsg=quota, see ", "45009", "".
    split; [reflexivity|]. split; [reflexivity|]. by left.
  - specialize (Hclaim _ _ Htry2 Hrun2 40001). rewrite send_result_errcode in Hclaim.
    enough (Some (PInt 50000) = Some (PInt 40001)) by discriminate.
    apply Hclaim.
    exists "", "40001", ", client failure".
    split; [reflexivity|]. split; [reflexivity|]. by right.
Qed.

(** ** The theorems at sample inputs *)

Lemma verify_signature_iff_witness :
  "test_secret" ≠ ""
  ∧ generate_signature Samples.settings "test_api_key" 1700000000 "test_payload"
      (Some "test_secret")
    = Ok "4f0b59a899da8b10421a42abf021c5d4f93f333854acf35cdd3ef640201d1b5f"
  ∧ verify_signature Samples.settings "test_api_key" 1700000000 "test_payload"
      "4f0b59a899da8b10421a42abf021c5d4f93f333854acf35cdd3ef640201d1b5f"
      (Some "test_secret")
    = Ok true
  ∧ verify_signature Samples.settings "test_api_key" 1700000000 "test_payload"
      "4f0b59a899da8b10421a42abf021c5d4f93f333854acf35cdd3ef640201d1b5e"
      (Some "test_secret")
    = Ok false.
Proof.
  assert ("test_secret" ≠ "") as Hsecret by discriminate.
  split; [exact Hsecret|].
  split; [|split].
  - rewrite (proj1 (proj2
      (verify_signature_iff Samples.settings "test_api_key" 1700000000
         "test_payload" "" "test_secret" Hsecret))).
    vm_compute. reflexivity.
  - apply (proj2 (proj1
      (verify_signature_iff Samples.settings "test_api_key" 1700000000
         "test_payload"
         "4f0b59a899da8b10421a42abf021c5d4f93f333854acf35cdd3ef640201d1b5f"
         "test_secret" Hsecret))).
    vm_compute. reflexivity.
  - apply (proj2 (proj2 (proj2
      (verify_signature_iff Samples.settings "test_api_key" 1700000000
         "test_payload"
         "4f0b59a899da8b10421a42abf021c5d4f93f333854acf35cdd3ef640201d1b5e"
         "test_secret" Hsecret)))).
    vm_compute. discriminate.
Defined.

Lemma no_keys_rejects_all_witness :
  api_keys_list Samples.settings_without_keys = []
  ∧ verify_api_key Samples.settings_without_keys "test_api_key_12345" = false.
Proof.
  split; [reflexivity|].
  apply no_keys_rejects_all. reflexivity.
Defined.

Lemma empty_signature_is_no_signature_witness :
  "test_api_key_12345" ≠ ""
  ∧ "test_api_key_12345" ∈ api_keys_list Samples.settings
  ∧ validate_api_key_with_signature Samples.settings 1700000000
      "test_api_key_12345" (Some 0) "payload" (Some "")
    = Ok (true, MSG_VALID).
Proof.
  assert ("test_api_key_12345" ≠ "") as Hne by discriminate.
  assert ("test_api_key_12345" ∈ api_keys_list Samples.settings) as Hin
    by (apply (bool_decide_unpack _); vm_compute; exact I).
  split; [exact Hne|]. split; [exact Hin|].
  exact (proj1 (empty_signature_is_no_signature Samples.settings 1700000000
                  "test_api_key_12345" (Some 0) "payload" Hne Hin)).
Defined.

Lemma invalid_key_rejected_witness :
  ("invalid_key" = "" ∨ "invalid_key" ∉ api_keys_list Samples.settings)
  ∧ validate_api_key_with_signature Samples.settings 1700000000
      "invalid_key" (Some 1700000000) "payload" (Some "signature")
    = Ok (false, MSG_INVALID_KEY)
  ∧ send.send_message_get Samples.settings 1700000000 Samples.vendor_ok
      (Samples.query "invalid_key" "wechat" None None)
    = ([], HTTPErrorResponse 401 (error_detail (PInt 40001) (PStr MSG_INVALID_KEY)))
  ∧ send.send_message_post Samples.settings 1700000000 Samples.vendor_ok
      "http" "testserver" (Samples.send_request "invalid_key")
    = ([], HTTPErrorResponse 401 (error_detail (PInt 40001) (PStr MSG_INVALID_KEY))).
Proof.
  assert ("invalid_key" = "" ∨ "invalid_key" ∉ api_keys_list Samples.settings) as Hkey
    by (right; apply (bool_decide_unpack _); vm_compute; exact I).
  split; [exact Hkey|].
  destruct (invalid_key_rejected Samples.settings 1700000000 "invalid_key"
              (Some 1700000000) "payload" (Some "signature") Hkey)
    as (Hvalidate & Hget & Hpost).
  split; [exact Hvalidate|]. split.
  - apply Hget. reflexivity.
  - apply Hpost. reflexivity.
Defined.

Lemma invalid_channel_rejected_witness :
  let q := Samples.query "test_api_key_12345" "bogus" None None in
  ((send.q_channel q ∉ ["wechat"; "workwechat"])
   ∧ dependencies.verify_api_key_dependency Samples.settings 1700000000
       (send.q_items q) (send.q_api_key q) (send.q_timestamp q) (send.q_signature q)
     = ([], Ok (send.q_api_key q))
   ∧ send.send_message_get Samples.settings 1700000000 Samples.vendor_ok q
     = ([], HTTPErrorResponse 400
              (error_detail (PInt 40000) (PStr (send.msg_invalid_channel "bogus"))))).
Proof.
  intros q.
  assert (send.q_channel q ∉ ["wechat"; "workwechat"]) as Hch
    by (apply (bool_decide_unpack _); vm_compute; exact I).
  assert (dependencies.verify_api_key_dependency Samples.settings 1700000000
            (send.q_items q) (send.q_api_key q) (send.q_timestamp q) (send.q_signature q)
          = ([], Ok (send.q_api_key q))) as Hpass by (vm_compute; reflexivity).
  split; [exact Hch|]. split; [exact Hpass|].
  destruct (invalid_channel_rejected Samples.settings 1700000000 Samples.vendor_ok q Hch)
    as (Hcalls & Hresp & _).
  specialize (Hresp Hpass).
  destruct (send.send_message_get Samples.settings 1700000000 Samples.vendor_ok q)
    as [calls resp].
  simpl in Hcalls, Hresp. rewrite Hcalls, Hresp. reflexivity.
Defined.

Lemma agentid_checked_before_any_call_witness :
  (Py.truthy_opt None = false
   ∧ Py.truthy_opt (default_workwechat_agentid Samples.settings) = false
   ∧ WorkWeChatService.send_message Samples.settings Samples.vendor_ok
       "corpid" "corpsecret" "userid" "title" "content" None None
     = ([], Ok (send_result 40000 WorkWeChatService.MSG_AGENTID_REQUIRED PNone)))
  ∧ (Py.int_of_str "agent-7" = None
     ∧ WorkWeChatService.send_message Samples.settings Samples.vendor_ok
         "corpid" "corpsecret" "userid" "title" "content" None (Some "agent-7")
       = ([], Ok (send_result 40000
                    (WorkWeChatService.msg_agentid_not_integer "agent-7") PNone))).
Proof.
  assert ("agent-7" ≠ "") as Hne by discriminate.
  split.
  - split; [reflexivity|]. split; [reflexivity|].
    exact (proj1 (proj1
      (agentid_checked_before_any_call Samples.settings Samples.vendor_ok
         "corpid" "corpsecret" "userid" "title" "content" None None)
      eq_refl eq_refl)).
  - split; [reflexivity|].
    exact (proj1 (proj2
      (agentid_checked_before_any_call Samples.settings Samples.vendor_ok
         "corpid" "corpsecret" "userid" "title" "content" None (Some "agent-7"))
      "agent-7" (or_introl (conj eq_refl Hne)) eq_refl)).
Defined.


Lemma dispatchers_return_structured_result_witness :
  WorkWeChatService.resolve_agentid Samples.settings (Some "1000002") = Some "1000002"
  ∧ Py.int_of_str "1000002" = Some 1000002
  ∧ (WorkWeChatService.send_message_try Samples.vendor_bad_credentials
       "corpid" "corpsecret" "userid" "title" "content" 1000002).2
    = Raise (ValueError "企业微信 API 错误: errcode=40013, errmsg=invalid appid")
  ∧ ∃ result,
      (WorkWeChatService.send_message Samples.settings Samples.vendor_bad_credentials
         "corpid" "corpsecret" "userid" "title" "content" None (Some "1000002")).2
      = Ok result
      ∧ result !! "errcode" = Some (PInt 40013).
Proof.
  assert ((WorkWeChatService.send_message_try Samples.vendor_bad_credentials
             "corpid" "corpsecret" "userid" "title" "content" 1000002).2
          = Raise (ValueError "企业微信 API 错误: errcode=40013, errmsg=invalid appid"))
    as Htry by (vm_compute; reflexivity).
  split; [reflexivity|]. split; [reflexivity|]. split; [exact Htry|].
  destruct (dispatchers_return_structured_result Samples.settings
              Samples.vendor_bad_credentials "corpid" "corpsecret" "userid"
              "title" "content" None) as [_ Hwork].
  destruct (Hwork (Some "1000002")) as (result & Hresult & _ & Hcases).
  destruct (Hcases "1000002" 1000002 eq_refl eq_refl) as [_ Hfail].
  exists result. split; [exact Hresult|].
  exact (proj1 (Hfail _ Htry)).
Defined.

(** ** The further properties at sample inputs *)

Lemma sample_key_listed settings :
  api_keys settings = Some ["test_api_key_12345"; "test_api_key_67890"] ->
  "test_api_key_12345" ≠ "" ∧ "test_api_key_12345" ∈ api_keys_list settings.
Proof.
  intros Hkeys. split; [discriminate|].
  unfold api_keys_list. rewrite Hkeys. apply list_elem_of_here.
Defined.

Lemma signed_request_verdict_witness :
  validate_api_key_with_signature Cases.settings_signed 1700000100
    "test_api_key_12345" (Some 1700000000) "test_payload" (Some Cases.signature)
  = Ok (true, MSG_VALID)
  ∧ validate_api_key_with_signature Cases.settings_signed 1700000301
      "test_api_key_12345" (Some 1700000000) "test_payload" (Some Cases.signature)
    = Ok (false, MSG_TIMESTAMP_EXPIRED).
Proof.
  destruct (sample_key_listed Cases.settings_signed eq_refl) as [Hne Hin].
  assert (Cases.signature ≠ "") as Hsig by discriminate.
  assert ("test_secret" ≠ "") as Hsecret by discriminate.
  split.
  - rewrite (signed_request_verdict Cases.settings_signed 1700000100
               "test_api_key_12345" 1700000000 "test_payload" Cases.signature
               "test_secret" Hne Hin Hsig eq_refl Hsecret).
    vm_compute. reflexivity.
  - rewrite (signed_request_verdict Cases.settings_signed 1700000301
               "test_api_key_12345" 1700000000 "test_payload" Cases.signature
               "test_secret" Hne Hin Hsig eq_refl Hsecret).
    vm_compute. reflexivity.
Defined.

Lemma accepted_key_is_listed_witness :
  validate_api_key_with_signature Samples.settings 1700000000
    "test_api_key_12345" None "" None = Ok (true, MSG_VALID)
  ∧ "test_api_key_12345" ∈ api_keys_list Samples.settings.
Proof.
  assert (validate_api_key_with_signature Samples.settings 1700000000
            "test_api_key_12345" None "" None = Ok (true, MSG_VALID)) as Hok
    by (vm_compute; reflexivity).
  split; [exact Hok|].
  exact (proj1 (proj2 (accepted_key_is_listed Samples.settings 1700000000
                         "test_api_key_12345" None "" None MSG_VALID Hok))).
Defined.

Lemma signature_needs_configured_secret_witness :
  (api_key_secret Samples.settings = None ∨ api_key_secret Samples.settings = Some "")
  ∧ validate_api_key_with_signature Samples.settings 1700000100
      "test_api_key_12345" (Some 1700000000) "test_payload" (Some Cases.signature)
    = Ok (false, MSG_SIGNATURE_FAILED).
Proof.
  destruct (sample_key_listed Samples.settings eq_refl) as [Hne Hin].
  assert (Cases.signature ≠ "") as Hsig by discriminate.
  split; [by left|].
  apply (signature_needs_configured_secret Samples.settings 1700000100
           "test_api_key_12345" 1700000000 "test_payload" Cases.signature
           (or_introl eq_refl)); [exact Hne|exact Hin|exact Hsig|].
  vm_compute. discriminate.
Defined.

Lemma signature_is_64_hex_digits_witness :
  generate_signature Cases.settings_signed "test_api_key_12345" 1700000000
    "test_payload" None = Ok Cases.signature
  ∧ String.length Cases.signature = 64%nat.
Proof.
  assert (generate_signature Cases.settings_signed "test_api_key_12345" 1700000000
            "test_payload" None = Ok Cases.signature) as Hsig
    by (vm_compute; reflexivity).
  split; [exact Hsig|].
  exact (proj1 (signature_is_64_hex_digits _ _ _ _ _ _ Hsig)).
Defined.

Lemma query_payload_canonical_witness :
  dependencies.query_payload
    [("title", "t"); ("signature", "s"); ("timestamp", "1700000000");
     ("api_key", "test_api_key_12345")]
  = "api_key=test_api_key_12345&timestamp=1700000000&title=t"
  ∧ dependencies.query_payload [("a", "1"); ("a", "2")] = "a=2"
  ∧ dependencies.query_payload [("a", "2"); ("a", "1")] = "a=1".
Proof.
  split; [|split].
  - etransitivity;
      [exact (proj1 (proj2 query_payload_canonical) [("title", "t")] "s"
                [("timestamp", "1700000000"); ("api_key", "test_api_key_12345")])|].
    vm_compute. reflexivity.
  - etransitivity;
      [exact (proj2 (proj2 (proj2 query_payload_canonical)) [] "a" "1" "2")|].
    vm_compute. reflexivity.
  - etransitivity;
      [exact (proj2 (proj2 (proj2 query_payload_canonical)) [] "a" "2" "1")|].
    vm_compute. reflexivity.
Defined.

Lemma signed_get_passes_witness :
  dependencies.verify_api_key_dependency Cases.settings_signed 1700000100
    (("api_key", "test_api_key_12345") :: ("signature", Cases.query_signature)
     :: [("timestamp", "1700000000"); ("title", "t")])
    "test_api_key_12345" (Some 1700000000) (Some Cases.query_signature)
  = ([], Ok "test_api_key_12345").
Proof.
  apply (signed_get_passes Cases.settings_signed 1700000100 Cases.query_items).
  - discriminate.
  - exact (proj2 (sample_key_listed Cases.settings_signed eq_refl)).
  - vm_compute. discriminate.
  - vm_compute. reflexivity.
  - apply perm_swap.
  - apply (bool_decide_unpack _). vm_compute. reflexivity.
Defined.

Lemma signed_post_passes_witness :
  dependencies.verify_api_key_from_body Cases.settings_signed 1700000100
    Cases.signed_body
  = ([], Ok Cases.signed_body).
Proof.
  refine (proj1 (signed_post_passes Cases.settings_signed 1700000100
                   Cases.signed_body 1700000000 Cases.body_signature
                   _ _ eq_refl _ _ eq_refl)).
  - discriminate.
  - exact (proj2 (sample_key_listed Cases.settings_signed eq_refl)).
  - vm_compute. discriminate.
  - vm_compute. reflexivity.
Defined.



Lemma wechat_message_delivered_witness :
  WeChatService.send_message Samples.settings Samples.vendor_ok
    "wx_appid" "wx_secret" "user_openid" "title" "content"
    (Some "https://example.com") (Some "template")
  = ([GET WeChatService.WECHAT_TOKEN_URL
        [("grant_type", "client_credential"); ("appid", "wx_appid");
         ("secret", "wx_secret")];
      POST (WeChatService.WECHAT_TEMPLATE_SEND_URL +:+ "?access_token=t")
        (JObj [("touser", JStr "user_openid"); ("template_id", JStr "template");
               ("data",
                JObj [("title", JObj [("value", JStr "title"); ("color", JStr "#173177")]);
                      ("content",
                       JObj [("value", JStr "content"); ("color", JStr "#173177")])]);
               ("url", JStr "https://example.com")])],
     Ok (send_result 0 "ok" (PInt 123456789))).
Proof.
  refine (wechat_message_delivered Samples.settings Samples.vendor_ok
            "wx_appid" "wx_secret" "user_openid" "title" "content"
            (Some "https://example.com") (Some "template") "template"
            (PStr "t") (PInt 7200) _ _ eq_refl eq_refl eq_refl).
  left. split; [reflexivity|discriminate].
Defined.

Lemma workwechat_message_delivered_witness :
  WorkWeChatService.send_message Samples.settings Samples.vendor_ok
    "corpid" "corpsecret" "user" "title" "content" None (Some "1000002")
  = ([GET WorkWeChatService.WORKWECHAT_TOKEN_URL
        [("corpid", "corpid"); ("corpsecret", "corpsecret")];
      POST (WorkWeChatService.WORKWECHAT_MESSAGE_SEND_URL +:+ "?access_token=t")
        (JObj [("touser", JStr "user"); ("msgtype", JStr "text");
               ("agentid", JInt 1000002);
               ("text",
                JObj [("content",
                       JStr ("title" +:+ String "010" (String "010" "content")))]);
               ("safe", JInt 0)])],
     Ok (send_result 0 "ok" (PInt 123456789))).
Proof.
  refine (workwechat_message_delivered Samples.settings Samples.vendor_ok
            "corpid" "corpsecret" "user" "title" "content" None (Some "1000002")
            "1000002" 1000002 (PStr "t") (PInt 7200) _ _ _ _ eq_refl eq_refl eq_refl).
  - left. split; [reflexivity|discriminate].
  - vm_compute. reflexivity.
  - vm_compute. reflexivity.
Defined.

Lemma adapter_failure_answered_400_witness :
  send.send_message_post Samples.settings 1700000000 Samples.vendor_ok
    "http" "testserver" Cases.workwechat_body
  = ([], HTTPErrorResponse 400
           (error_detail (PInt 40000) (PStr WorkWeChatService.MSG_AGENTID_REQUIRED)))
  ∧ send.send_message_get Samples.settings 1700000000 Samples.vendor_ok
      (Samples.query "test_api_key_12345" "workwechat" None None)
    = ([], HTTPErrorResponse 400
             (error_detail (PInt 40000) (PStr WorkWeChatService.MSG_AGENTID_REQUIRED))).
Proof.
  split.
  - refine (proj1 (proj2 (proj2 (adapter_failure_answered_400 Samples.settings
                                   1700000000 Samples.vendor_ok "http" "testserver"
                                   Cases.workwechat_body)
                            40000 WorkWeChatService.MSG_AGENTID_REQUIRED PNone _ _)) _).
    + vm_compute. reflexivity.
    + discriminate.
    + vm_compute. reflexivity.
  - refine (proj2 (proj2 (proj2 (adapter_failure_answered_400 Samples.settings
                                   1700000000 Samples.vendor_ok "http" "testserver"
                                   Cases.workwechat_query_body)
                            40000 WorkWeChatService.MSG_AGENTID_REQUIRED PNone _ _))
              (Samples.query "test_api_key_12345" "workwechat" None None)
              _ _ eq_refl eq_refl).
    + vm_compute. reflexivity.
    + discriminate.
    + vm_compute. reflexivity.
    + vm_compute. reflexivity.
Defined.

Lemma template_message_link_witness :
  let calls :=
    [GET WeChatService.WECHAT_TOKEN_URL
       [("grant_type", "client_credential"); ("appid", "test_appid");
        ("secret", "test_secret")];
     POST (WeChatService.WECHAT_TEMPLATE_SEND_URL +:+ "?access_token=t")
       (JObj [("touser", JStr "test_userid"); ("template_id", JStr "template");
              ("data",
               JObj [("title", JObj [("value", JStr "title"); ("color", JStr "#173177")]);
                     ("content",
                      JObj [("value", JStr "content"); ("color", JStr "#173177")])]);
              ("url", JStr "http://testserver/detail?title=title&content=content")])] in
  (send.send_message_post Samples.settings 1700000000 Samples.vendor_ok
     "http" "testserver" (Samples.send_request "test_api_key_12345")).1 = calls
  ∧ (send.send_message_get Samples.settings 1700000000 Samples.vendor_ok
       (Samples.query "test_api_key_12345" "wechat" None None)).1 = calls.
Proof.
  assert (sr_channel (Samples.send_request "test_api_key_12345") ≠ "workwechat")
    as Hchannel by discriminate.
  assert ((sr_template_id (Samples.send_request "test_api_key_12345") = Some "template"
           ∧ "template" ≠ "")
          ∨ (Py.truthy_opt (sr_template_id (Samples.send_request "test_api_key_12345"))
             = false
             ∧ default_wechat_template_id Samples.settings = Some "template"
             ∧ "template" ≠ "")) as Htid
    by (left; split; [reflexivity|discriminate]).
  assert ((WeChatService.get_access_token Samples.vendor_ok
             (sr_appid (Samples.send_request "test_api_key_12345"))
             (sr_secret (Samples.send_request "test_api_key_12345"))).2
          = Ok (PStr "t", PInt 7200)) as Htoken by (vm_compute; reflexivity).
  split.
  - refine (proj1 (proj2 (template_message_link Samples.settings 1700000000
                            Samples.vendor_ok "http" "testserver"
                            (Samples.send_request "test_api_key_12345") "template"
                            (PStr "t") (PInt 7200) Hchannel Htid Htoken)) _).
    vm_compute. reflexivity.
  - refine (proj2 (proj2 (template_message_link Samples.settings 1700000000
                            Samples.vendor_ok "http" "testserver"
                            (Samples.send_request "test_api_key_12345") "template"
                            (PStr "t") (PInt 7200) Hchannel Htid Htoken))
              (Samples.query "test_api_key_12345" "wechat" None None)
              _ _ eq_refl eq_refl).
    + vm_compute. reflexivity.
    + vm_compute. reflexivity.
Defined.

Lemma get_out_of_bounds_answered_500_witness :
  send.send_message_get Samples.settings 1700000000 Samples.vendor_ok
    Cases.query_empty_title
  = ([], JSONResponse 500 (error_detail (PInt 50000) (PStr "服务器内部错误"))).
Proof.
  apply get_out_of_bounds_answered_500.
  - vm_compute. reflexivity.
  - apply list_elem_of_here.
  - left. cbn. lia.
Defined.
